(** * Edge control system and cloud-sync batch: a shallow embedding

    The development follows the two source files of the repository:

    - [edge_control_system.py]: the hysteresis controller
      ([main_control_loop]) and the logger ([log_action]);
    - [cloud_sync_logic.py]: the log parser ([parse_log_entry]) and the
      batch exporter ([read_local_buffer_and_sync]).

    Conventions of the embedding.

    - A Python [str] is a [string]; one [ascii] stands for one code point
      below 256, so the degree sign of the temperature lines is a single
      character, as it is in Python.
    - A Python [float] is a [spec_float] (IEEE 754 binary64, the
      specification type of the Rocq core library); [a < b] is [SFltb a b]
      and [a > b] is [SFltb b a].
    - An exception is a value of [exn]; code that may raise returns a
      [result].
    - A [dict] with insertion order is an association list.
    - The file system is a finite map from paths to lists of lines. *)

From Stdlib Require Import ZArith List Bool Ascii String Lia DecimalString.
From Stdlib Require Import Floats.SpecFloat.
From stdpp Require Import gmap strings.
Import ListNotations.

Local Open Scope string_scope.
Local Open Scope Z_scope.

(** ** Python built-ins used by the two programs *)

Module Py.

(** Exceptions that the modelled code can raise.  [KeyboardInterrupt] and
    [SystemExit] derive from [BaseException] only; the others derive from
    [Exception]. *)
Inductive exn : Type :=
| IndexError
| ValueError
| RuntimeError
| KeyboardInterrupt
| SystemExit.

(** [isinstance(e, Exception)] *)
Definition is_Exception (e : exn) : bool :=
  match e with
  | KeyboardInterrupt | SystemExit => false
  | _ => true
  end.

Inductive result (A : Type) : Type :=
| Ok (a : A)
| Raise (e : exn).
Arguments Ok {A} a.
Arguments Raise {A} e.

Definition bind {A B} (r : result A) (k : A -> result B) : result B :=
  match r with
  | Ok a => k a
  | Raise e => Raise e
  end.

(** [l[i]] for a list and a non-negative index. *)
Definition getitem {A} (l : list A) (i : nat) : result A :=
  match nth_error l i with
  | Some a => Ok a
  | None => Raise IndexError
  end.

(** [s[i:]] *)
Fixpoint slice_from (i : nat) (s : string) : string :=
  match i, s with
  | O, _ => s
  | S i', String _ s' => slice_from i' s'
  | S _, EmptyString => EmptyString
  end.

(** [s[:n]] *)
Fixpoint slice_to (n : nat) (s : string) : string :=
  match n, s with
  | S n', String c s' => String c (slice_to n' s')
  | _, _ => EmptyString
  end.

(** [s[i:j]] for [0 <= i <= j]. *)
Definition slice (i j : nat) (s : string) : string :=
  slice_to (j - i) (slice_from i s).

(** [c.isspace()] on the code points below 256. *)
Definition isspace (c : ascii) : bool :=
  let n := N_of_ascii c in
  ((9 <=? n) && (n <=? 13) || (28 <=? n) && (n <=? 32)
   || (n =? 133) || (n =? 160))%N.

Fixpoint lstrip (s : string) : string :=
  match s with
  | String c s' => if isspace c then lstrip s' else s
  | EmptyString => EmptyString
  end.

Fixpoint rstrip (s : string) : string :=
  match s with
  | EmptyString => EmptyString
  | String c s' =>
      match rstrip s' with
      | EmptyString => if isspace c then EmptyString else String c EmptyString
      | r => String c r
      end
  end.

(** [s.strip()] *)
Definition strip (s : string) : string := lstrip (rstrip s).

(** [sub in s] *)
Fixpoint contains (sub s : string) : bool :=
  if String.prefix sub s then true
  else match s with
       | EmptyString => false
       | String _ s' => contains sub s'
       end.

(** [s.split(sep)] for a non-empty [sep]: the pieces between the
    non-overlapping occurrences of [sep], found from left to right.
    [skip] counts the characters of a matched separator that are still
    to be passed over; [acc] holds the current piece, reversed. *)
Fixpoint split_go (sep : string) (skip : nat) (acc : string) (s : string)
  : list string :=
  match s with
  | EmptyString => [String.rev acc]
  | String c s' =>
      match skip with
      | S k => split_go sep k acc s'
      | O =>
          if String.prefix sep s
          then String.rev acc :: split_go sep (String.length sep - 1) EmptyString s'
          else split_go sep O (String c acc) s'
      end
  end.

Definition split (sep s : string) : list string :=
  split_go sep O EmptyString s.

(** [str(n)] for an integer. *)
Definition str_of_int (n : Z) : string :=
  NilZero.string_of_int (Z.to_int n).

(** [any(p(x) for x in l)] *)
Definition any {A} (p : A -> bool) (l : list A) : bool := existsb p l.

(** A [dict] from strings to strings, in insertion order. *)
Definition dict : Type := list (string * string).

Definition keys (d : dict) : list string := map fst d.

Fixpoint get (k : string) (d : dict) : option string :=
  match d with
  | [] => None
  | (k', v) :: d' => if String.eqb k k' then Some v else get k d'
  end.

End Py.

Import Py.

Notation "x <- r ;; k" := (Py.bind r (fun x => k))
  (at level 100, r at next level, right associativity, only parsing).

(** ** The logger, [edge_control_system.py] *)

(** The line that [log_action] builds from the clock's reading and its two
    arguments:
    [f"[{timestamp}] {sensor_data}. Action: {action}"]. *)
Definition log_entry (timestamp sensor_data action : string) : string :=
  "[" +:+ timestamp +:+ "] " +:+ sensor_data +:+ ". Action: " +:+ action.

(** The callers of [log_action] build [sensor_data] from a metric label and
    a display value, as in [f"Soil_Moisture: {current_moisture:.1f}%"]. *)
Definition sensor_data (label display : string) : string :=
  label +:+ ": " +:+ display.

(** ** The parser, [cloud_sync_logic.py] *)

Definition LOCAL_LOG_FILE : string := "ActuatorLog_Local.txt".
Definition CLOUD_READY_CSV : string := "CloudSync_Ready.csv".
Definition CRITICAL_ACTIONS : list string :=
  ["Pump ON"; "Fan ON"; "Mister ON"; "Shade Net ON"; "LEDs ON"].

(** The fields that the [try] block of [parse_log_entry] extracts before it
    draws the correlation id. *)
Record extracted : Type := {
  x_timestamp : string;
  x_sensor_type : string;
  x_sensor_value_unit : string;
  x_action_name : string;
  x_is_critical : bool
}.

Definition extract (line : string) : result extracted :=
  let timestamp := slice 1 20 line in
  let data_parts := split ". Action: " (slice_from 23 line) in
  d0 <- getitem data_parts 0 ;;
  let sensor_data_raw := split ": " d0 in
  sensor_type <- getitem sensor_data_raw 0 ;;
  s1 <- getitem sensor_data_raw 1 ;;
  let sensor_value_unit := strip s1 in
  d1 <- getitem data_parts 1 ;;
  let action_raw := strip d1 in
  a0 <- getitem (split "(" action_raw) 0 ;;
  let action_name := strip a0 in
  let is_critical :=
    any (fun crit_action => contains crit_action action_name) CRITICAL_ACTIONS in
  Ok {| x_timestamp := timestamp;
        x_sensor_type := sensor_type;
        x_sensor_value_unit := sensor_value_unit;
        x_action_name := action_name;
        x_is_critical := is_critical |}.

(** The dictionary returned on success; [n] is the integer drawn by
    [random.randint(1000, 9999)]. *)
Definition record_of (x : extracted) (n : Z) : dict :=
  [ ("Timestamp", x_timestamp x);
    ("Sensor_Type", x_sensor_type x);
    ("Sensor_Reading", x_sensor_value_unit x);
    ("Actuator_Action", x_action_name x);
    ("Is_Critical", if x_is_critical x then "Yes" else "No");
    ("Cloud_Sync_ID", "CS-" +:+ str_of_int n) ].

(** Does character [c] occur in [s]? *)
Fixpoint occurs (c : ascii) (s : string) : bool :=
  match s with
  | EmptyString => false
  | String x s' => if ascii_dec c x then true else occurs c s'
  end.

(** The text of [s] before the first [c]; all of [s] when there is none. *)
Fixpoint text_before (c : ascii) (s : string) : string :=
  match s with
  | EmptyString => EmptyString
  | String x s' => if ascii_dec c x then EmptyString else String x (text_before c s')
  end.

(** The dictionaries that the parser builds. *)
Definition is_record (d : dict) : Prop := exists x n, d = record_of x n.

Section Parser.

(** The pseudo-random generator of the [random] module: its state and
    [randint]. *)
Variable rng : Type.
Variable randint : Z -> Z -> rng -> Z * rng.

(** The body of the [try] block: extraction, then the dictionary.  The
    generator is advanced only when extraction has succeeded. *)
Definition parse_log_entry_try (line : string) (g : rng) : result dict * rng :=
  match extract line with
  | Ok x => let (n, g') := randint 1000 9999 g in (Ok (record_of x n), g')
  | Raise e => (Raise e, g)
  end.

(** [parse_log_entry]: [except Exception] turns every exception of that
    class into [None]; any other exception would leave the function. *)
Definition parse_log_entry (line : string) (g : rng)
  : result (option dict) * rng :=
  match parse_log_entry_try line g with
  | (Ok d, g') => (Ok (Some d), g')
  | (Raise e, g') =>
      if is_Exception e then (Ok None, g') else (Raise e, g')
  end.

End Parser.

(** The file system: the lines of each existing file. *)
Abbreviation files := (gmap string (list string)).

(** The line feed that ends a line of a text file. *)
Definition LF : string := String (ascii_of_nat 10) EmptyString.

(** ** The controller, [edge_control_system.py] *)

(** Python floats are binary64. *)
Definition float : Type := spec_float.
Definition float_of_int (n : Z) : float := binary_normalize 53 1024 n 0 false.
Definition float_add (a b : float) : float := SFadd 53 1024 a b.
Definition float_sub (a b : float) : float := SFsub 53 1024 a b.
Definition lt (a b : float) : bool := SFltb a b.
Definition gt (a b : float) : bool := SFltb b a.
Definition le (a b : float) : bool := SFleb a b.

Definition TARGET_MOISTURE_LOW : float := float_of_int 40.
Definition TARGET_MOISTURE_HIGH : float := float_of_int 65.
Definition TARGET_TEMP_HIGH : float := float_of_int 32.
Definition TARGET_TEMP_OPTIMAL : float := float_of_int 28.
Definition TARGET_HUMIDITY_HIGH : float := float_of_int 80.
Definition TARGET_HUMIDITY_LOW : float := float_of_int 60.
Definition TARGET_LIGHT_HIGH : float := float_of_int 30000.
Definition TARGET_LIGHT_LOW : float := float_of_int 15000.

(** [is_active] of the five [OutputDevice]s. *)
Record ActuatorState : Type := {
  pump : bool;
  fan : bool;
  mister : bool;
  led_light : bool;
  shade_net : bool
}.

Definition set_pump (b : bool) (a : ActuatorState) : ActuatorState :=
  {| pump := b; fan := fan a; mister := mister a;
     led_light := led_light a; shade_net := shade_net a |}.
Definition set_fan (b : bool) (a : ActuatorState) : ActuatorState :=
  {| pump := pump a; fan := b; mister := mister a;
     led_light := led_light a; shade_net := shade_net a |}.
Definition set_mister (b : bool) (a : ActuatorState) : ActuatorState :=
  {| pump := pump a; fan := fan a; mister := b;
     led_light := led_light a; shade_net := shade_net a |}.
Definition set_led_light (b : bool) (a : ActuatorState) : ActuatorState :=
  {| pump := pump a; fan := fan a; mister := mister a;
     led_light := b; shade_net := shade_net a |}.
Definition set_shade_net (b : bool) (a : ActuatorState) : ActuatorState :=
  {| pump := pump a; fan := fan a; mister := mister a;
     led_light := led_light a; shade_net := b |}.

Definition all_off : ActuatorState :=
  {| pump := false; fan := false; mister := false;
     led_light := false; shade_net := false |}.

(** The five devices, and [device.is_active]. *)
Inductive actuator : Type := Pump | Fan | Mister | Led | Shade.

Definition is_active (d : actuator) (a : ActuatorState) : bool :=
  match d with
  | Pump => pump a
  | Fan => fan a
  | Mister => mister a
  | Led => led_light a
  | Shade => shade_net a
  end.

(** [switches d b a a']: from [a] to [a'], device [d] ends in state [b] and
    every other device keeps its state. *)
Definition switches (d : actuator) (b : bool) (a a' : ActuatorState) : Prop :=
  is_active d a' = b /\ forall d', d' <> d -> is_active d' a' = is_active d' a.

(** One reading per metric, as read at the top of a cycle. *)
Record Frame : Type := {
  current_moisture : float;
  current_temp : float;
  current_humidity : float;
  current_light : float
}.

(** ['ON' if b else 'OFF'] *)
Definition on_off (b : bool) : string := if b then "ON" else "OFF".

(** The degree sign, code point 176. *)
Definition degree_C : string := String (ascii_of_nat 176) "C".

Section Controller.

(** The format specifications [:.1f] and [:.0f] of the f-strings. *)
Variable fmt_1f : float -> string.
Variable fmt_0f : float -> string.

(** What one category does in a cycle: the actuators after it, and the
    two arguments of its call of [log_action]. *)
Definition CategoryResult : Type := (ActuatorState * (string * string))%type.

(** A. soil moisture, irrigation pump. *)
Definition moisture_control (m : float) (a : ActuatorState) : CategoryResult :=
  let sd := "Soil_Moisture: " +:+ fmt_1f m +:+ "%" in
  if lt m TARGET_MOISTURE_LOW && Bool.eqb (pump a) false then
    (set_pump true a, (sd, "Pump ON (Irrigation START)"))
  else if gt m TARGET_MOISTURE_HIGH && Bool.eqb (pump a) true then
    (set_pump false a, (sd, "Pump OFF (Irrigation STOP)"))
  else
    (a, (sd, "Soil_Moisture: No Change (" +:+ on_off (pump a) +:+ ")")).

(** B. temperature, cooling fan. *)
Definition temperature_control (t : float) (a : ActuatorState) : CategoryResult :=
  let sd := "Temperature: " +:+ fmt_1f t +:+ degree_C in
  if gt t TARGET_TEMP_HIGH && Bool.eqb (fan a) false then
    (set_fan true a, (sd, "Fan ON (Cooling START)"))
  else if lt t TARGET_TEMP_OPTIMAL && Bool.eqb (fan a) true then
    (set_fan false a, (sd, "Fan OFF (Cooling STOP)"))
  else
    (a, (sd, "Temperature: No Change (" +:+ on_off (fan a) +:+ ")")).

(** C. humidity, mister and fan. *)
Definition humidity_control (h : float) (a : ActuatorState) : CategoryResult :=
  let sd := "Humidity: " +:+ fmt_1f h +:+ "%" in
  if lt h TARGET_HUMIDITY_LOW && Bool.eqb (mister a) false then
    (set_mister true a, (sd, "Mister ON (Humidify START)"))
  else if gt h TARGET_HUMIDITY_HIGH && Bool.eqb (mister a) true then
    (set_mister false a, (sd, "Mister OFF (Humidify STOP)"))
  else if gt h TARGET_HUMIDITY_HIGH && Bool.eqb (fan a) false then
    (set_fan true a, (sd, "Fan ON (Dehumidify START)"))
  else
    (a, (sd, "Humidity: No Change (" +:+ on_off (mister a) +:+ ")")).

(** D. light intensity, LEDs and shade net. *)
Definition light_control (l : float) (a : ActuatorState) : CategoryResult :=
  let sd := "Light_Intensity: " +:+ fmt_0f l +:+ " Lux" in
  if lt l TARGET_LIGHT_LOW && Bool.eqb (led_light a) false then
    (set_led_light true a, (sd, "LEDs ON (Low Light Supplement)"))
  else if gt l (float_add TARGET_LIGHT_LOW (float_of_int 500))
          && Bool.eqb (led_light a) true then
    (set_led_light false a, (sd, "LEDs OFF (Light Optimal)"))
  else if gt l TARGET_LIGHT_HIGH && Bool.eqb (shade_net a) false then
    (set_shade_net true a, (sd, "Shade Net ON (High Light Protection)"))
  else if lt l (float_sub TARGET_LIGHT_HIGH (float_of_int 1000))
          && Bool.eqb (shade_net a) true then
    (set_shade_net false a,
     ("Light: " +:+ fmt_0f l +:+ " Lux", "Shade Net OFF (Light Reduced)"))
  else
    let light_state :=
      "LED:" +:+ on_off (led_light a) +:+ ", Shade:" +:+ on_off (shade_net a) in
    (a, (sd, "Light: No Change (" +:+ light_state +:+ ")")).

End Controller.

(** ** The control loop *)

Inductive category : Type := Moisture | Temperature | Humidity | Light.

(** Where in a cycle an exception is raised.  [Deciding]: in the
    conditions of a category, before its actuator call.  [Logging]: in its
    call of [log_action], after the actuator call and before the line is
    written. *)
Inductive stage : Type := Deciding | Logging.

Inductive point : Type :=
| AtSensors
| At (c : category) (s : stage)
| AtSleep.

(** The [finally] block: five calls of [off], in the order of the source. *)
Definition shutdown (a : ActuatorState) : ActuatorState :=
  set_shade_net false
    (set_led_light false
       (set_mister false
          (set_fan false
             (set_pump false a)))).

Section ControlLoop.

Variable fmt_1f : float -> string.
Variable fmt_0f : float -> string.

(** The clock: [datetime.datetime.now().strftime("%Y-%m-%d %H:%M:%S")]. *)
Variable clock : Type.
Variable strftime_now : clock -> string * clock.

Record World : Type := {
  actuators : ActuatorState;
  clk : clock;
  fs : files
}.

Definition with_actuators (a : ActuatorState) (w : World) : World :=
  {| actuators := a; clk := clk w; fs := fs w |}.

(** [log_action]: the entry is appended to the local log, which is created
    when it does not exist.  The model follows the write that succeeds; a
    failing write is reported by the source and changes nothing. *)
Definition log_action (sensor_data action : string) (w : World) : World :=
  let (timestamp, c) := strftime_now (clk w) in
  let entry := log_entry timestamp sensor_data action in
  {| actuators := actuators w;
     clk := c;
     fs := <["ActuatorLog_Local.txt" :=
               (default [] (fs w !! "ActuatorLog_Local.txt")
                ++ [entry +:+ LF])%list]>
             (fs w) |}.

Definition control (c : category) (f : Frame) (a : ActuatorState)
  : CategoryResult :=
  match c with
  | Moisture => moisture_control fmt_1f (current_moisture f) a
  | Temperature => temperature_control fmt_1f (current_temp f) a
  | Humidity => humidity_control fmt_1f (current_humidity f) a
  | Light => light_control fmt_0f (current_light f) a
  end.

(** One category of a cycle: the actuator call, then the log line. *)
Definition run_category (c : category) (f : Frame) (w : World) : World :=
  let '(a, (sensor_data, action)) := control c f (actuators w) in
  log_action sensor_data action (with_actuators a w).

(** The body of [while True]: the four categories in their fixed order
    (the wait at the end changes nothing). *)
Definition cycle (f : Frame) (w : World) : World :=
  run_category Light f
    (run_category Humidity f
       (run_category Temperature f
          (run_category Moisture f w))).

(** The categories that have run when category [c] starts. *)
Definition before (c : category) : list category :=
  match c with
  | Moisture => []
  | Temperature => [Moisture]
  | Humidity => [Moisture; Temperature]
  | Light => [Moisture; Temperature; Humidity]
  end.

(** The state in which a cycle is when an exception is raised at [pt]. *)
Definition interrupted_cycle (f : Frame) (pt : point) (w : World) : World :=
  match pt with
  | AtSensors => w
  | At c s =>
      let w1 := fold_left (fun w' c' => run_category c' f w') (before c) w in
      match s with
      | Deciding => w1
      | Logging => with_actuators (fst (control c f (actuators w1))) w1
      end
  | AtSleep => cycle f w
  end.

(** The lines logged after the devices have been set up. *)
Definition log_initial (f : Frame) (w : World) : World :=
  log_action ("Light: " +:+ fmt_0f (current_light f) +:+ " Lux")
             "System Initialized: Light OFF"
    (log_action ("Humidity: " +:+ fmt_1f (current_humidity f) +:+ "%")
                "System Initialized: Mister OFF"
       (log_action ("Temp: " +:+ fmt_1f (current_temp f) +:+ degree_C)
                   "System Initialized: Fan OFF"
          (log_action ("Moisture: " +:+ fmt_1f (current_moisture f) +:+ "%")
                      "System Initialized: Pump OFF" w))).

(** [main_control_loop], for a run that completes the cycles of [frames]
    and in which exception [e] is raised at point [pt] of the next cycle,
    whose readings are [last].  [init] holds the readings of the initial
    log lines.  The result is [Ok tt] when the function returns and
    [Raise e] when [e] leaves it. *)
Definition main_control_loop (c0 : clock) (fs0 : files)
  (init : Frame) (frames : list Frame) (last : Frame) (pt : point) (e : exn)
  : result unit * World :=
  (* the devices are created inactive and switched off *)
  let w0 := {| actuators := shutdown all_off; clk := c0; fs := fs0 |} in
  let w1 := log_initial init w0 in
  (* try: while True *)
  let w2 := interrupted_cycle last pt (fold_left (fun w f => cycle f w) frames w1) in
  (* except KeyboardInterrupt / except Exception *)
  let outcome :=
    match e with
    | KeyboardInterrupt => Ok tt
    | _ => if is_Exception e then Ok tt else Raise e
    end in
  (* finally *)
  (outcome, with_actuators (shutdown (actuators w2)) w2).

End ControlLoop.

(** ** The batch exporter, [cloud_sync_logic.py] *)

(** Truth value of [structured_entry] in [if structured_entry:]: [None] and
    the empty dictionary are false. *)
Definition truthy (o : option dict) : bool :=
  match o with
  | Some (_ :: _) => true
  | _ => false
  end.

(** [DictWriter._dict_to_list] with the default [extrasaction='raise'] and
    [restval='']. *)
Definition dict_to_list (fieldnames : list string) (rowdict : dict)
  : result (list string) :=
  if forallb (fun k => existsb (String.eqb k) fieldnames) (keys rowdict)
  then Ok (map (fun k => default EmptyString (get k rowdict)) fieldnames)
  else Raise ValueError.

Section Batch.

Variable rng : Type.
Variable randint : Z -> Z -> rng -> Z * rng.

(** The text that [csv.writer] writes for one row (the dialect's quoting,
    delimiter and line terminator belong to the [csv] library). *)
Variable csv_row : list string -> string.

(** The loop [for line in f] with its accumulator [processed_data]. *)
Fixpoint parse_lines (lines : list string) (processed_data : list dict) (g : rng)
  : result (list dict) * rng :=
  match lines with
  | [] => (Ok processed_data, g)
  | line :: rest =>
      match parse_log_entry rng randint (strip line) g with
      | (Ok structured_entry, g') =>
          if truthy structured_entry
          then parse_lines rest
                 (processed_data ++ [default [] structured_entry]) g'
          else parse_lines rest processed_data g'
      | (Raise e, g') => (Raise e, g')
      end
  end.

(** [writer.writerows(processed_data)]: rows are written one by one; a row
    that [dict_to_list] rejects stops the writing with its exception. *)
Fixpoint writerows (fieldnames : list string) (rowdicts : list dict)
  (csvfile : list string) : result unit * list string :=
  match rowdicts with
  | [] => (Ok tt, csvfile)
  | rowdict :: rest =>
      match dict_to_list fieldnames rowdict with
      | Ok row => writerows fieldnames rest (csvfile ++ [csv_row row])
      | Raise e => (Raise e, csvfile)
      end
  end.

(** [read_local_buffer_and_sync]: the outcome, the file system and the
    generator after the run.  The messages printed on the way are not part
    of the model. *)
Definition read_local_buffer_and_sync (fs : files) (g : rng)
  : result unit * files * rng :=
  match fs !! LOCAL_LOG_FILE with
  | None => (Ok tt, fs, g)
  | Some lines =>
      match parse_lines lines [] g with
      | (Raise e, g') => (Raise e, fs, g')
      | (Ok [], g') => (Ok tt, fs, g')
      | (Ok ((first :: _) as processed_data), g') =>
          let fieldnames := keys first in
          (* [open(CLOUD_READY_CSV, 'w')] starts from an empty file;
             [writeheader] writes the field names as a row. *)
          let csvfile := [csv_row fieldnames] in
          let (r, csvfile') := writerows fieldnames processed_data csvfile in
          (r, <[CLOUD_READY_CSV := csvfile']> fs, g')
      end
  end.

(** The records of a log in file order, as the interface describes them:
    one record for each line that parses, in the order of the lines. *)
Fixpoint records_in_file_order (lines : list string) (g : rng) : list dict :=
  match lines with
  | [] => []
  | line :: rest =>
      match parse_log_entry rng randint (strip line) g with
      | (Ok (Some d), g') => d :: records_in_file_order rest g'
      | (_, g') => records_in_file_order rest g'
      end
  end.

(** The values of a record, in the order of its fields. *)
Definition values (d : dict) : list string := map snd d.

End Batch.

(** ** Inputs used in the examples *)

(** The texts are what the f-strings print for the readings they go with. *)
Definition fmt_35_0 (_ : float) : string := "35.0".
Definition fmt_70_0 (_ : float) : string := "70.0".
Definition fmt_50_0 (_ : float) : string := "50.0".
Definition fmt_90_0 (_ : float) : string := "90.0".
Definition fmt_10000 (_ : float) : string := "10000".
Definition led_on_shade_on : ActuatorState :=
  {| pump := false; fan := false; mister := false;
     led_light := true; shade_net := true |}.
Definition led_on_shade_off : ActuatorState :=
  {| pump := false; fan := false; mister := false;
     led_light := true; shade_net := false |}.
Definition mister_on : ActuatorState := set_mister true all_off.

(** A clock for the examples: it counts the seconds of one minute. *)
Definition counting_clock (n : nat) : string * nat :=
  ("2025-01-01 00:00:" +:+ (if (n mod 60 <? 10)%nat then "0" else "")
     +:+ str_of_int (Z.of_nat (n mod 60)), S n).

(** The frame of the interface example: moisture 35, temperature 29,
    humidity 70, light 20000. *)
Definition dry_frame : Frame :=
  {| current_moisture := float_of_int 35;
     current_temp := float_of_int 29;
     current_humidity := float_of_int 70;
     current_light := float_of_int 20000 |}.

(** A generator for the examples: a counter, drawing [lo + n mod (hi-lo+1)]. *)
Definition counter_randint (lo hi : Z) (n : nat) : Z * nat :=
  (lo + Z.of_nat n mod (hi - lo + 1), S n).

(** A row writer for the examples: fields joined by commas, ended by CR LF. *)
Definition comma_row (row : list string) : string :=
  String.concat "," row +:+ String (ascii_of_nat 13) LF.

(** A log of three lines, the second of which is not a log entry. *)
Definition sample_log : list string :=
  [ "[2025-01-01 00:00:00] Soil_Moisture: 35.0%. Action: Pump ON (Irrigation START)" +:+ LF;
    "sensor bus reset" +:+ LF;
    "[2025-01-01 00:00:05] Humidity: 70.0%. Action: Humidity: No Change (OFF)" +:+ LF ].

Definition sample_fs : files := {[ LOCAL_LOG_FILE := sample_log ]}.

(** The records that the parser returns for the first and the third line. *)
Definition sample_first : dict :=
  record_of {| x_timestamp := "2025-01-01 00:00:00";
               x_sensor_type := "oil_Moisture";
               x_sensor_value_unit := "35.0%";
               x_action_name := "Pump ON";
               x_is_critical := true |} 1000.
Definition sample_second : dict :=
  record_of {| x_timestamp := "2025-01-01 00:00:05";
               x_sensor_type := "umidity";
               x_sensor_value_unit := "70.0%";
               x_action_name := "Humidity: No Change";
               x_is_critical := false |} 1001.

(** A log without entries, next to an export of an earlier run. *)
Definition stale_fs : files :=
  <[ CLOUD_READY_CSV := ["Timestamp,Sensor_Type"; "2024-12-31 23:59:59,oisture"] ]>
    {[ LOCAL_LOG_FILE := ["sensor bus reset" +:+ LF; LF] ]}.

(** ** Further inputs *)

Definition fmt_25_0 (_ : float) : string := "25.0".
Definition fmt_30_0 (_ : float) : string := "30.0".
Definition fmt_20000 (_ : float) : string := "20000".
Definition fan_on : ActuatorState := set_fan true all_off.

(** A cool and humid frame: temperature 25, humidity 90. *)
Definition cool_humid_frame : Frame :=
  {| current_moisture := float_of_int 50;
     current_temp := float_of_int 25;
     current_humidity := float_of_int 90;
     current_light := float_of_int 20000 |}.

(** The devices that a category can switch. *)
Definition drives (c : category) (d : actuator) : bool :=
  match c, d with
  | Moisture, Pump => true
  | Temperature, Fan => true
  | Humidity, (Mister | Fan) => true
  | Light, (Led | Shade) => true
  | _, _ => false
  end.

(** The reading that a category looks at. *)
Definition reading (c : category) (f : Frame) : float :=
  match c with
  | Moisture => current_moisture f
  | Temperature => current_temp f
  | Humidity => current_humidity f
  | Light => current_light f
  end.

(** A frame whose four readings are not numbers. *)
Definition nan_frame : Frame :=
  {| current_moisture := S754_nan;
     current_temp := S754_nan;
     current_humidity := S754_nan;
     current_light := S754_nan |}.


(** ** The simulated sensors, [edge_control_system.py] *)

(** The four module-level variables. *)
Record SensorState : Type := {
  simulated_moisture : float;
  simulated_temp : float;
  simulated_humidity : float;
  simulated_light : float
}.

Definition initial_sensors : SensorState :=
  {| simulated_moisture := float_of_int 75;
     simulated_temp := float_of_int 28;
     simulated_humidity := float_of_int 70;
     simulated_light := float_of_int 20000 |}.

(** [min(a, b)] and [max(a, b)] on two floats: the first argument is kept
    unless the second is strictly smaller (larger). *)
Definition py_min (a b : float) : float := if lt b a then b else a.
Definition py_max (a b : float) : float := if gt b a then b else a.

(** The literals [0.5] and [-0.1] (the double nearest to one tenth,
    negated). *)
Definition float_0_5 : float := S754_finite false 4503599627370496 (-53).
Definition float_minus_0_1 : float := S754_finite true 7205759403792794 (-56).

Section Sensors.

(** [random.uniform] with the state of its generator, and [round(x, n)]. *)
Variable rng : Type.
Variable uniform : float -> float -> rng -> float * rng.
Variable round_ndigits : float -> Z -> float.

Definition get_soil_moisture_reading (s : SensorState) (g : rng)
  : float * SensorState * rng :=
  let m := simulated_moisture s in
  let '(m1, g1) :=
    if gt m (float_of_int 70) then
      let (u, g') := uniform (float_of_int 1) (float_of_int 3) g in
      (float_sub m u, g')
    else if lt m (float_of_int 30) then
      let (u, g') := uniform (float_of_int 5) (float_of_int 10) g in
      (float_add m u, g')
    else
      let (u, g') := uniform (float_of_int (-1)) (float_of_int 1) g in
      (float_add m u, g') in
  let m2 := py_max (float_of_int 0) (py_min (float_of_int 100) m1) in
  (m2,
   {| simulated_moisture := m2;
      simulated_temp := simulated_temp s;
      simulated_humidity := simulated_humidity s;
      simulated_light := simulated_light s |},
   g1).

Definition get_temperature_reading (s : SensorState) (g : rng)
  : float * SensorState * rng :=
  let (u, g1) := uniform float_minus_0_1 float_0_5 g in
  let t1 := float_add (simulated_temp s) u in
  let t2 := py_max (float_of_int 15) (py_min (float_of_int 40) t1) in
  (round_ndigits t2 1,
   {| simulated_moisture := simulated_moisture s;
      simulated_temp := t2;
      simulated_humidity := simulated_humidity s;
      simulated_light := simulated_light s |},
   g1).

Definition get_humidity_reading (s : SensorState) (g : rng)
  : float * SensorState * rng :=
  let (u, g1) := uniform (float_of_int (-1)) float_0_5 g in
  let h1 := float_add (simulated_humidity s) u in
  let h2 := py_max (float_of_int 30) (py_min (float_of_int 95) h1) in
  (round_ndigits h2 1,
   {| simulated_moisture := simulated_moisture s;
      simulated_temp := simulated_temp s;
      simulated_humidity := h2;
      simulated_light := simulated_light s |},
   g1).

Definition get_light_reading (s : SensorState) (g : rng)
  : float * SensorState * rng :=
  let (u, g1) := uniform (float_of_int (-1000)) (float_of_int 2500) g in
  let l1 := float_add (simulated_light s) u in
  let l2 := py_max (float_of_int 0) (py_min (float_of_int 60000) l1) in
  (round_ndigits l2 0,
   {| simulated_moisture := simulated_moisture s;
      simulated_temp := simulated_temp s;
      simulated_humidity := simulated_humidity s;
      simulated_light := l2 |},
   g1).

(** The four reads at the top of a cycle, in their order. *)
Definition read_sensors (s : SensorState) (g : rng)
  : Frame * SensorState * rng :=
  let '(m, s1, g1) := get_soil_moisture_reading s g in
  let '(t, s2, g2) := get_temperature_reading s1 g1 in
  let '(h, s3, g3) := get_humidity_reading s2 g2 in
  let '(l, s4, g4) := get_light_reading s3 g3 in
  ({| current_moisture := m; current_temp := t;
      current_humidity := h; current_light := l |}, s4, g4).

End Sensors.

(** A generator for the examples that always draws the lower bound, and a
    rounding that keeps its argument. *)
Definition lower_bound (a _ : float) (n : nat) : float * nat := (a, S n).
Definition keep_value (x : float) (_ : Z) : float := x.

(** The stored values lie in the ranges of the sensors. *)
Definition in_range (s : SensorState) : Prop :=
  (le (float_of_int 0) (simulated_moisture s) = true
   /\ le (simulated_moisture s) (float_of_int 100) = true)
  /\ (le (float_of_int 15) (simulated_temp s) = true
      /\ le (simulated_temp s) (float_of_int 40) = true)
  /\ (le (float_of_int 30) (simulated_humidity s) = true
      /\ le (simulated_humidity s) (float_of_int 95) = true)
  /\ (le (float_of_int 0) (simulated_light s) = true
      /\ le (simulated_light s) (float_of_int 60000) = true).

(** Stored values outside every range. *)
Definition wild_sensors : SensorState :=
  {| simulated_moisture := S754_nan;
     simulated_temp := S754_infinity false;
     simulated_humidity := S754_infinity true;
     simulated_light := float_of_int (-5) |}.

(** ** The local log as a list of lines *)




(** ** Lines that the batch can read *)

(** Every character of [s] satisfies [p]. *)
Fixpoint all_chars (p : ascii -> bool) (s : string) : bool :=
  match s with
  | EmptyString => true
  | String c s' => p c && all_chars p s'
  end.

(** The characters of a number printed with [:.1f] or [:.0f]: digits, the
    point, the sign, and the letters of [nan] and [inf]. *)
Definition numeric_char (c : ascii) : bool := occurs c "0123456789.-naif".
Definition numeric_text (s : string) : bool := all_chars numeric_char s.


(** Some device that was OFF in [a] is ON in [a']. *)
Definition switched_on (a a' : ActuatorState) : bool :=
  existsb (fun d => negb (is_active d a) && is_active d a')
          [Pump; Fan; Mister; Led; Shade].

(** The action name and the criticality that the parser derives from the
    action part of a line. *)
Definition action_name_of (action : string) : string :=
  strip (text_before "(" (strip action)).

Definition critical_action (action : string) : bool :=
  any (fun crit_action => contains crit_action (action_name_of action))
      CRITICAL_ACTIONS.

(** The line that category [c] logs at time stamp [ts] for frame [f] in
    state [a], as it stands in the file. *)
Definition category_line (fmt_1f fmt_0f : float -> string) (ts : string)
  (c : category) (f : Frame) (a : ActuatorState) : string :=
  log_entry ts (fst (snd (control fmt_1f fmt_0f c f a)))
    (snd (snd (control fmt_1f fmt_0f c f a))) +:+ LF.

(** The field names of a record, in the order of the dictionary literal. *)
Definition RECORD_FIELDS : list string :=
  ["Timestamp"; "Sensor_Type"; "Sensor_Reading"; "Actuator_Action";
   "Is_Critical"; "Cloud_Sync_ID"].

(** A record without its correlation id. *)
Definition without_id (d : dict) : dict :=
  List.filter (fun kv => negb (String.eqb (fst kv) "Cloud_Sync_ID")) d.



(** * Properties *)

(** ** Order on floats *)

Section FloatOrder.

Ltac cases_compare :=
  repeat match goal with
    | |- context [ Pos.compare_cont Eq ?x ?y ] =>
        change (Pos.compare_cont Eq x y) with (Pos.compare x y);
        destruct (Pos.compare_spec x y)
    | H : context [ Pos.compare_cont Eq ?x ?y ] |- _ =>
        change (Pos.compare_cont Eq x y) with (Pos.compare x y) in H;
        destruct (Pos.compare_spec x y)
    | |- context [ Z.compare ?x ?y ] => destruct (Z.compare_spec x y)
    | H : context [ Z.compare ?x ?y ] |- _ => destruct (Z.compare_spec x y)
    end.

Ltac order_cases a b :=
  unfold lt, gt, le, SFltb, SFleb, SFcompare;
  destruct a as [[]|[]| |[] ? ?], b as [[]|[]| |[] ? ?];
  simpl; try congruence.

Lemma lt_asym (a b : float) : lt a b = true -> lt b a = false.
Proof.
  order_cases a b; intros H; cases_compare; simpl in *;
    try congruence; try lia.
Qed.

Lemma le_not_gt (a b : float) : le a b = true -> gt a b = false.
Proof.
  unfold gt. order_cases a b; intros H; cases_compare; simpl in *;
    try congruence; try lia.
Qed.

Lemma lt_trans (a b c : float) :
  lt a b = true -> lt b c = true -> lt a c = true.
Proof.
  unfold lt, SFltb, SFcompare.
  destruct a as [[]|[]| |[] ? ?], b as [[]|[]| |[] ? ?],
           c as [[]|[]| |[] ? ?];
    simpl; try congruence;
    intros H1 H2; cases_compare; simpl in *; try congruence; try lia.
Qed.

End FloatOrder.


(** ** The hysteresis rules *)

Lemma light_low_below_off_threshold (l : float) :
  lt l TARGET_LIGHT_LOW = true ->
  gt l (float_add TARGET_LIGHT_LOW (float_of_int 500)) = false
  /\ gt l TARGET_LIGHT_HIGH = false
  /\ lt l (float_sub TARGET_LIGHT_HIGH (float_of_int 1000)) = true.
Proof.
  intros H. unfold gt. repeat split.
  - apply lt_asym. apply (lt_trans _ _ _ H). reflexivity.
  - apply lt_asym. apply (lt_trans _ _ _ H). reflexivity.
  - apply (lt_trans _ _ _ H). reflexivity.
Qed.

(** C3, as stated, fails: with a light reading of 10000 lux, the LED ON and
    the shade net ON, the light category retracts the shade net. *)
Lemma light_low_led_on_shade_on_changes :
  lt (float_of_int 10000) TARGET_LIGHT_LOW = true
  /\ led_light led_on_shade_on = true
  /\ shade_net (fst (light_control fmt_10000 (float_of_int 10000) led_on_shade_on))
     <> shade_net led_on_shade_on
  /\ snd (snd (light_control fmt_10000 (float_of_int 10000) led_on_shade_on))
     = "Shade Net OFF (Light Reduced)".
Proof. vm_compute. repeat split; congruence. Qed.

(** C3, amended: when the light reading is below [TARGET_LIGHT_LOW] and the
    LED is already ON, neither LED branch fires and the LED stays ON; with
    the shade net OFF no branch fires, no actuator changes and the category
    logs no-change; with the shade net ON the shade-retract branch fires
    and switches only the shade net OFF. *)
Theorem light_low_led_on (fmt_0f : float -> string) (l : float) (a : ActuatorState) :
  lt l TARGET_LIGHT_LOW = true ->
  led_light a = true ->
  led_light (fst (light_control fmt_0f l a)) = true
  /\ (shade_net a = false ->
      light_control fmt_0f l a
      = (a, ("Light_Intensity: " +:+ fmt_0f l +:+ " Lux",
             "Light: No Change (LED:ON, Shade:OFF)")))
  /\ (shade_net a = true ->
      light_control fmt_0f l a
      = (set_shade_net false a,
         ("Light: " +:+ fmt_0f l +:+ " Lux", "Shade Net OFF (Light Reduced)"))).
Proof.
  intros Hl Hled.
  destruct (light_low_below_off_threshold l Hl) as (H2 & H3 & H4).
  unfold light_control. rewrite Hl, H2, H3, H4, Hled. simpl.
  destruct (shade_net a) eqn:Hs; simpl; rewrite ?Hled;
    repeat split; try congruence; intros _; rewrite ?Hled; reflexivity.
Qed.

Lemma light_low_led_on_witness :
  led_light (fst (light_control fmt_10000 (float_of_int 10000) led_on_shade_off)) = true
  /\ fst (light_control fmt_10000 (float_of_int 10000) led_on_shade_off)
     = led_on_shade_off
  /\ fst (light_control fmt_10000 (float_of_int 10000) led_on_shade_on)
     = led_on_shade_off.
Proof.
  destruct (light_low_led_on fmt_10000 (float_of_int 10000) led_on_shade_off)
    as (H1 & H2 & _); [reflexivity | reflexivity |].
  destruct (light_low_led_on fmt_10000 (float_of_int 10000) led_on_shade_on)
    as (_ & _ & H3); [reflexivity | reflexivity |].
  split; [exact H1 |].
  split; [rewrite (H2 eq_refl) | rewrite (H3 eq_refl)]; reflexivity.
Defined.

(** C4: the moisture category.  Below [TARGET_MOISTURE_LOW] with the pump
    OFF it switches the pump ON and leaves every other actuator as it was;
    above [TARGET_MOISTURE_HIGH] with the pump ON it switches the pump OFF;
    for a reading in the closed interval between the two thresholds the
    pump keeps its state. *)
Theorem moisture_pump_hysteresis
  (fmt_1f : float -> string) (m : float) (a : ActuatorState) :
  (lt m TARGET_MOISTURE_LOW = true -> pump a = false ->
   pump (fst (moisture_control fmt_1f m a)) = true
   /\ forall d, d <> Pump ->
        is_active d (fst (moisture_control fmt_1f m a)) = is_active d a)
  /\ (gt m TARGET_MOISTURE_HIGH = true -> pump a = true ->
      pump (fst (moisture_control fmt_1f m a)) = false)
  /\ (le TARGET_MOISTURE_LOW m = true -> le m TARGET_MOISTURE_HIGH = true ->
      pump (fst (moisture_control fmt_1f m a)) = pump a).
Proof.
  unfold moisture_control. split; [| split].
  - intros Hlt Hp. rewrite Hlt, Hp. simpl. split; [reflexivity |].
    intros [] Hd; try reflexivity. congruence.
  - intros Hgt Hp.
    assert (lt m TARGET_MOISTURE_LOW = false) as ->.
    { apply lt_asym. apply (lt_trans _ TARGET_MOISTURE_HIGH); [reflexivity | exact Hgt]. }
    rewrite Hgt, Hp. reflexivity.
  - intros Hlo Hhi.
    apply le_not_gt in Hlo, Hhi. unfold gt in Hlo. unfold lt at 1.
    rewrite Hlo, Hhi. reflexivity.
Qed.

Lemma moisture_pump_hysteresis_witness :
  pump (fst (moisture_control fmt_35_0 (float_of_int 35) all_off)) = true
  /\ pump (fst (moisture_control fmt_70_0 (float_of_int 70) (set_pump true all_off))) = false
  /\ pump (fst (moisture_control fmt_50_0 (float_of_int 50) (set_pump true all_off))) = true.
Proof.
  split; [| split].
  - destruct (moisture_pump_hysteresis fmt_35_0 (float_of_int 35) all_off)
      as (H & _ & _).
    apply H; reflexivity.
  - destruct (moisture_pump_hysteresis fmt_70_0 (float_of_int 70) (set_pump true all_off))
      as (_ & H & _).
    apply H; reflexivity.
  - destruct (moisture_pump_hysteresis fmt_50_0 (float_of_int 50) (set_pump true all_off))
      as (_ & _ & H).
    apply H; reflexivity.
Defined.

Lemma switches_set_mister (b : bool) (a : ActuatorState) :
  switches Mister b a (set_mister b a).
Proof. split; [reflexivity |]. intros [] Hd; try reflexivity. congruence. Qed.

Lemma switches_set_fan (b : bool) (a : ActuatorState) :
  switches Fan b a (set_fan b a).
Proof. split; [reflexivity |]. intros [] Hd; try reflexivity. congruence. Qed.

(** C5: the humidity category is an ordered first-match chain.  (1) Below
    [TARGET_HUMIDITY_LOW] with the mister OFF, only the mister changes: it
    turns ON.  (2) Otherwise, above [TARGET_HUMIDITY_HIGH] with the mister
    ON, only the mister changes: it turns OFF, and the fan is left alone.
    (3) Otherwise, above [TARGET_HUMIDITY_HIGH] with the fan OFF, the fan
    turns ON, logged as the start of dehumidifying.  (4) Otherwise no
    actuator changes and the category logs no-change. *)
Theorem humidity_first_match_chain
  (fmt_1f : float -> string) (h : float) (a : ActuatorState) :
  (lt h TARGET_HUMIDITY_LOW = true /\ mister a = false ->
   switches Mister true a (fst (humidity_control fmt_1f h a))
   /\ snd (snd (humidity_control fmt_1f h a)) = "Mister ON (Humidify START)")
  /\ (~ (lt h TARGET_HUMIDITY_LOW = true /\ mister a = false) ->
      gt h TARGET_HUMIDITY_HIGH = true /\ mister a = true ->
      switches Mister false a (fst (humidity_control fmt_1f h a))
      /\ fan (fst (humidity_control fmt_1f h a)) = fan a
      /\ snd (snd (humidity_control fmt_1f h a)) = "Mister OFF (Humidify STOP)")
  /\ (~ (lt h TARGET_HUMIDITY_LOW = true /\ mister a = false) ->
      ~ (gt h TARGET_HUMIDITY_HIGH = true /\ mister a = true) ->
      gt h TARGET_HUMIDITY_HIGH = true /\ fan a = false ->
      switches Fan true a (fst (humidity_control fmt_1f h a))
      /\ snd (snd (humidity_control fmt_1f h a)) = "Fan ON (Dehumidify START)")
  /\ (~ (lt h TARGET_HUMIDITY_LOW = true /\ mister a = false) ->
      ~ (gt h TARGET_HUMIDITY_HIGH = true /\ mister a = true) ->
      ~ (gt h TARGET_HUMIDITY_HIGH = true /\ fan a = false) ->
      fst (humidity_control fmt_1f h a) = a
      /\ snd (snd (humidity_control fmt_1f h a))
         = "Humidity: No Change (" +:+ on_off (mister a) +:+ ")").
Proof.
  unfold humidity_control.
  split; [| split; [| split]].
  - intros [-> ->]. simpl. split; [apply switches_set_mister | reflexivity].
  - intros _ [-> ->].
    destruct (lt h TARGET_HUMIDITY_LOW); simpl;
      (split; [apply switches_set_mister | split; reflexivity]).
  - intros H1 H2 [Hgt Hfan]. rewrite Hgt, Hfan in *.
    destruct (lt h TARGET_HUMIDITY_LOW), (mister a); simpl;
      try (exfalso; solve [apply H1; split; reflexivity
                          | apply H2; split; reflexivity]);
      (split; [apply switches_set_fan | reflexivity]).
  - intros H1 H2 H3.
    destruct (lt h TARGET_HUMIDITY_LOW), (gt h TARGET_HUMIDITY_HIGH),
      (mister a), (fan a); simpl;
      try (exfalso; solve [apply H1; split; reflexivity
                          | apply H2; split; reflexivity
                          | apply H3; split; reflexivity]);
      split; reflexivity.
Qed.

Lemma humidity_first_match_chain_witness :
  mister (fst (humidity_control fmt_50_0 (float_of_int 50) all_off)) = true
  /\ mister (fst (humidity_control fmt_90_0 (float_of_int 90) mister_on)) = false
  /\ fan (fst (humidity_control fmt_90_0 (float_of_int 90) mister_on)) = false
  /\ fan (fst (humidity_control fmt_90_0 (float_of_int 90) all_off)) = true
  /\ fst (humidity_control fmt_70_0 (float_of_int 70) mister_on) = mister_on.
Proof.
  destruct (humidity_first_match_chain fmt_50_0 (float_of_int 50) all_off)
    as (H1 & _).
  destruct (humidity_first_match_chain fmt_90_0 (float_of_int 90) mister_on)
    as (_ & H2 & _).
  destruct (humidity_first_match_chain fmt_90_0 (float_of_int 90) all_off)
    as (_ & _ & H3 & _).
  destruct (humidity_first_match_chain fmt_70_0 (float_of_int 70) mister_on)
    as (_ & _ & _ & H4).
  split; [| split; [| split; [| split]]].
  - apply H1. split; reflexivity.
  - apply H2; [intros [_ H]; discriminate H | split; reflexivity].
  - apply H2; [intros [_ H]; discriminate H | split; reflexivity].
  - apply H3; [intros [H _]; discriminate H | intros [_ H]; discriminate H
              | split; reflexivity].
  - apply H4; intros [H _]; discriminate H.
Defined.

(** ** Shutdown *)

Lemma shutdown_all_off (a : ActuatorState) : shutdown a = all_off.
Proof. reflexivity. Qed.

(** In the example run the pump is ON when the exception is raised, so the
    shutdown does switch something off. *)
Example pump_on_when_interrupted :
  pump (actuators nat
          (interrupted_cycle fmt_35_0 fmt_10000 nat counting_clock
             dry_frame (At Humidity Logging)
             (log_initial fmt_35_0 fmt_10000 nat counting_clock dry_frame
                {| actuators := all_off; clk := O; fs := empty |})))
  = true.
Proof. vm_compute. reflexivity. Qed.

(** The example of the interface: moisture 35, temperature 29, humidity 70
    and light 20000 with every device OFF switch the pump ON and nothing
    else. *)
Example cycle_dry_frame :
  actuators nat
    (cycle fmt_35_0 fmt_10000 nat counting_clock dry_frame
       {| actuators := all_off; clk := O; fs := empty |})
  = set_pump true all_off.
Proof. vm_compute. reflexivity. Qed.

(** C8: when the loop is ended by a keyboard interrupt or by an exception
    of class [Exception], raised at any point of any cycle, the function
    returns with all five actuators OFF: the handlers catch the exception
    and the [finally] block has switched every device off, so no fault
    leaves the function with a device still active. *)
Theorem shutdown_on_termination
  (fmt_1f fmt_0f : float -> string)
  (clock : Type) (strftime_now : clock -> string * clock)
  (c0 : clock) (fs0 : files)
  (init : Frame) (frames : list Frame) (last : Frame) (pt : point) (e : exn) :
  e = KeyboardInterrupt \/ is_Exception e = true ->
  fst (main_control_loop fmt_1f fmt_0f clock strftime_now
         c0 fs0 init frames last pt e) = Ok tt
  /\ actuators clock
       (snd (main_control_loop fmt_1f fmt_0f clock strftime_now
               c0 fs0 init frames last pt e)) = all_off
  /\ forall d,
       is_active d
         (actuators clock
            (snd (main_control_loop fmt_1f fmt_0f clock strftime_now
                    c0 fs0 init frames last pt e))) = false.
Proof.
  intros He. unfold main_control_loop. cbn [fst snd].
  split; [| split].
  - destruct He as [-> | He]; [reflexivity |].
    destruct e; simpl in He; try discriminate He; reflexivity.
  - unfold with_actuators. cbn [actuators]. apply shutdown_all_off.
  - intros d. unfold with_actuators. cbn [actuators].
    rewrite shutdown_all_off. destruct d; reflexivity.
Qed.

Lemma shutdown_on_termination_witness :
  actuators nat
    (snd (main_control_loop fmt_35_0 fmt_10000 nat counting_clock
            O empty dry_frame [dry_frame] dry_frame (At Humidity Logging)
            RuntimeError)) = all_off
  /\ actuators nat
       (snd (main_control_loop fmt_35_0 fmt_10000 nat counting_clock
               O empty dry_frame [] dry_frame AtSleep
               KeyboardInterrupt)) = all_off.
Proof.
  split.
  - apply (shutdown_on_termination fmt_35_0 fmt_10000 nat counting_clock
             O empty dry_frame [dry_frame] dry_frame (At Humidity Logging)
             RuntimeError).
    right. reflexivity.
  - apply (shutdown_on_termination fmt_35_0 fmt_10000 nat counting_clock
             O empty dry_frame [] dry_frame AtSleep KeyboardInterrupt).
    left. reflexivity.
Defined.

(** An exception outside [Exception] and [KeyboardInterrupt] leaves the
    function, after the [finally] block has run. *)
Lemma shutdown_before_propagation
  (fmt_1f fmt_0f : float -> string)
  (clock : Type) (strftime_now : clock -> string * clock)
  (c0 : clock) (fs0 : files)
  (init : Frame) (frames : list Frame) (last : Frame) (pt : point) :
  fst (main_control_loop fmt_1f fmt_0f clock strftime_now
         c0 fs0 init frames last pt SystemExit) = Raise SystemExit
  /\ actuators clock
       (snd (main_control_loop fmt_1f fmt_0f clock strftime_now
               c0 fs0 init frames last pt SystemExit)) = all_off.
Proof. split; reflexivity. Qed.

(** ** Strings *)

Lemma contains_cons (sub : string) (c : ascii) (s : string) :
  contains sub (String c s) = String.prefix sub (String c s) || contains sub s.
Proof. simpl. destruct sub as [| c' sub']; [reflexivity |]. reflexivity. Qed.

Lemma contains_nil (sub : string) :
  contains sub EmptyString = String.prefix sub EmptyString.
Proof. destruct sub; reflexivity. Qed.

Lemma prefix_length (sub s : string) :
  String.prefix sub s = true -> (String.length sub <= String.length s)%nat.
Proof.
  revert s. induction sub as [| c sub IH]; intros s H; simpl; [lia |].
  destruct s as [| c' s]; simpl in H; [discriminate |].
  destruct (ascii_dec c c'); [| discriminate].
  apply IH in H. simpl. lia.
Qed.

Lemma contains_length (sub s : string) :
  contains sub s = true -> (String.length sub <= String.length s)%nat.
Proof.
  induction s as [| c s IH].
  - rewrite contains_nil. apply prefix_length.
  - rewrite contains_cons. intros H. apply orb_prop in H. destruct H as [H | H].
    + apply prefix_length. exact H.
    + apply IH in H. simpl. lia.
Qed.

Lemma contains_slice_from (sub : string) (n : nat) (s : string) :
  contains sub (slice_from n s) = true -> contains sub s = true.
Proof.
  revert s. induction n as [| n IH]; intros s H; [exact H |].
  destruct s as [| c s]; [exact H |].
  simpl in H. rewrite contains_cons. apply IH in H. rewrite H.
  apply orb_true_r.
Qed.

Lemma slice_from_length (n : nat) (s : string) :
  String.length (slice_from n s) = (String.length s - n)%nat.
Proof.
  revert s. induction n as [| n IH]; intros s; simpl; [lia |].
  destruct s as [| c s]; simpl; [reflexivity | apply IH].
Qed.

(** A string without the separator is not split. *)
Lemma split_go_no_sep (sep acc s : string) :
  contains sep s = false -> exists x, split_go sep O acc s = [x].
Proof.
  revert acc. induction s as [| c s IH]; intros acc H.
  - eexists. reflexivity.
  - rewrite contains_cons in H. apply orb_false_elim in H. destruct H as [Hp Hc].
    cbn [split_go]. rewrite Hp. apply IH. exact Hc.
Qed.

Lemma split_go_nonempty (sep : string) (skip : nat) (acc s : string) :
  exists x l, split_go sep skip acc s = x :: l.
Proof.
  revert skip acc. induction s as [| c s IH]; intros skip acc.
  - eexists _, _. reflexivity.
  - cbn [split_go]. destruct skip as [| k]; [| apply IH].
    destruct (String.prefix sep (String c s)); [| apply IH].
    eexists _, _. reflexivity.
Qed.

Lemma prefix_trans (a b c : string) :
  String.prefix a b = true -> String.prefix b c = true -> String.prefix a c = true.
Proof.
  revert b c. induction a as [| x a IH]; intros b c Hab Hbc.
  - destruct c; reflexivity.
  - destruct b as [| y b]; [discriminate Hab |].
    destruct c as [| z c]; [discriminate Hbc |].
    simpl in *.
    destruct (ascii_dec x y) as [-> |]; [| discriminate Hab].
    destruct (ascii_dec y z) as [-> |]; [| discriminate Hbc].
    apply (IH b c); assumption.
Qed.

Lemma prefix_empty (s : string) : String.prefix EmptyString s = true.
Proof. destruct s; reflexivity. Qed.

Lemma contains_prefix (sub p s : string) :
  String.prefix p s = true -> contains sub p = true -> contains sub s = true.
Proof.
  revert s. induction p as [| c p IH]; intros s Hp Hc.
  - rewrite contains_nil in Hc. destruct sub; [| discriminate Hc].
    destruct s; reflexivity.
  - destruct s as [| c' s]; [discriminate Hp |].
    pose proof Hp as Hp'. simpl in Hp'.
    destruct (ascii_dec c c') as [<- |]; [| discriminate Hp'].
    rewrite contains_cons in Hc |- *.
    apply orb_prop in Hc. destruct Hc as [Hc | Hc].
    + rewrite (prefix_trans _ _ _ Hc Hp). reflexivity.
    + rewrite (IH s Hp' Hc). apply orb_true_r.
Qed.

Lemma prefix_rstrip (s : string) : String.prefix (rstrip s) s = true.
Proof.
  induction s as [| c s IH]; [reflexivity |].
  cbn [rstrip]. destruct (rstrip s) as [| c' r].
  - destruct (isspace c); [reflexivity |].
    simpl. destruct (ascii_dec c c); [apply prefix_empty | congruence].
  - change (String.prefix (String c (String c' r)) (String c s))
      with (if ascii_dec c c then String.prefix (String c' r) s else false).
    destruct (ascii_dec c c); [exact IH | congruence].
Qed.

Lemma contains_lstrip (sub s : string) :
  contains sub (lstrip s) = true -> contains sub s = true.
Proof.
  induction s as [| c s IH]; [trivial |].
  cbn [lstrip]. destruct (isspace c); [| trivial].
  intros H. rewrite contains_cons, (IH H). apply orb_true_r.
Qed.

Lemma contains_strip (sub s : string) :
  contains sub (strip s) = true -> contains sub s = true.
Proof.
  unfold strip. intros H. apply contains_lstrip in H.
  exact (contains_prefix _ _ _ (prefix_rstrip s) H).
Qed.

Lemma not_contains_strip (sub s : string) :
  contains sub s = false -> contains sub (strip s) = false.
Proof.
  intros H. destruct (contains sub (strip s)) eqn:E; [| reflexivity].
  apply contains_strip in E. congruence.
Qed.

Lemma append_cons (c : ascii) (s t : string) :
  String c s +:+ t = String c (s +:+ t).
Proof. reflexivity. Qed.

Lemma append_nil_r (s : string) : s +:+ "" = s.
Proof.
  induction s as [| c s IH]; [reflexivity |].
  rewrite append_cons, IH. reflexivity.
Qed.

Lemma append_assoc (a b c : string) : (a +:+ b) +:+ c = a +:+ (b +:+ c).
Proof.
  induction a as [| x a IH]; [reflexivity |].
  rewrite !append_cons, IH. reflexivity.
Qed.

Lemma rev_app_rev_app (a b c : string) :
  String.rev_app (String.rev_app a b) c = String.rev_app b (a +:+ c).
Proof.
  revert b c. induction a as [| x a IH]; intros b c; [reflexivity |].
  cbn [String.rev_app]. rewrite IH. reflexivity.
Qed.

Lemma rev_rev_app (a : string) : String.rev (String.rev_app a "") = a.
Proof. unfold String.rev. rewrite rev_app_rev_app. apply append_nil_r. Qed.

Lemma prefix_refl (s : string) : String.prefix s s = true.
Proof.
  induction s as [| c s IH]; [reflexivity |].
  simpl. destruct (ascii_dec c c); [exact IH | congruence].
Qed.

Lemma prefix_app (s t : string) : String.prefix s (s +:+ t) = true.
Proof.
  induction s as [| c s IH]; [apply prefix_empty |].
  rewrite append_cons. cbn [String.prefix].
  destruct (ascii_dec c c); [exact IH | congruence].
Qed.

Lemma prefix_app_cases (s a t : string) :
  String.prefix s (a +:+ t) = true ->
  String.prefix s a = true
  \/ exists s2, s = a +:+ s2 /\ String.prefix s2 t = true.
Proof.
  revert s. induction a as [| x a IH]; intros s H.
  - right. exists s. split; [reflexivity | exact H].
  - destruct s as [| y s]; [left; reflexivity |].
    rewrite append_cons in H. cbn [String.prefix] in H |- *.
    destruct (ascii_dec y x) as [-> |]; [| discriminate H].
    destruct (IH s H) as [Hp | (s2 & -> & Hp)]; [left; exact Hp |].
    right. exists s2. split; [reflexivity | exact Hp].
Qed.

Lemma occurs_app (c : ascii) (a b : string) : occurs c (a +:+ String c b) = true.
Proof.
  induction a as [| x a IH].
  - simpl. destruct (ascii_dec c c); congruence.
  - rewrite append_cons. cbn [occurs].
    destruct (ascii_dec c x); [reflexivity | exact IH].
Qed.

(** An occurrence of the separator cannot start inside [a] and end in the
    separator that follows, when the first character of the separator
    occurs in it only once. *)
Lemma prefix_no_straddle (c0 : ascii) (sep' a b : string) (x : ascii) :
  occurs c0 sep' = false ->
  String.prefix (String c0 sep') (String x a) = false ->
  String.prefix (String c0 sep') (String x a +:+ String c0 sep' +:+ b) = false.
Proof.
  intros Hocc Hp.
  destruct (String.prefix _ (String x a +:+ _)) eqn:E; [| reflexivity].
  apply prefix_app_cases in E. destruct E as [E | (s2 & Hs & E)]; [congruence |].
  destruct s2 as [| d s2].
  - rewrite append_nil_r in Hs. rewrite Hs, prefix_refl in Hp. discriminate Hp.
  - simpl in E. destruct (ascii_dec d c0) as [-> |]; [| discriminate E].
    rewrite append_cons in Hs. injection Hs as _ Hs.
    rewrite Hs, occurs_app in Hocc.
    discriminate Hocc.
Qed.

Lemma split_go_skip (sep x acc b : string) :
  split_go sep (String.length x) acc (x +:+ b) = split_go sep O acc b.
Proof.
  induction x as [| c x IH]; [destruct b; reflexivity | exact IH].
Qed.

Lemma split_go_whole (sep acc s : string) :
  contains sep s = false ->
  split_go sep O acc s = [String.rev (String.rev_app s acc)].
Proof.
  revert acc. induction s as [| c s IH]; intros acc H; [reflexivity |].
  rewrite contains_cons in H. apply orb_false_elim in H. destruct H as [Hp Hc].
  cbn [split_go]. rewrite Hp. apply IH. exact Hc.
Qed.

Lemma split_go_first (c0 : ascii) (sep' acc a b : string) :
  occurs c0 sep' = false ->
  contains (String c0 sep') a = false ->
  split_go (String c0 sep') O acc (a +:+ String c0 sep' +:+ b)
  = String.rev (String.rev_app a acc) :: split_go (String c0 sep') O EmptyString b.
Proof.
  intros Hocc. revert acc. induction a as [| x a IH]; intros acc H.
  - change ("" +:+ String c0 sep' +:+ b) with (String c0 (sep' +:+ b)).
    cbn [split_go].
    change (String c0 (sep' +:+ b)) with (String c0 sep' +:+ b).
    rewrite prefix_app.
    change (String.length (String c0 sep') - 1)%nat with (String.length sep' - 0)%nat.
    rewrite Nat.sub_0_r, split_go_skip. reflexivity.
  - rewrite contains_cons in H. apply orb_false_elim in H. destruct H as [Hp Hc].
    pose proof (prefix_no_straddle c0 sep' a b x Hocc Hp) as Hs.
    change (String x a +:+ String c0 sep' +:+ b)
      with (String x (a +:+ String c0 sep' +:+ b)) in Hs |- *.
    cbn [split_go]. rewrite Hs. rewrite (IH _ Hc). reflexivity.
Qed.

Lemma split_first (c0 : ascii) (sep' a b : string) :
  occurs c0 sep' = false ->
  contains (String c0 sep') a = false ->
  split (String c0 sep') (a +:+ String c0 sep' +:+ b)
  = a :: split (String c0 sep') b.
Proof.
  intros Hocc H. unfold split. rewrite (split_go_first _ _ _ _ _ Hocc H).
  rewrite rev_rev_app. reflexivity.
Qed.

Lemma split_whole (sep s : string) :
  contains sep s = false -> split sep s = [s].
Proof.
  intros H. unfold split. rewrite (split_go_whole _ _ _ H), rev_rev_app.
  reflexivity.
Qed.

Lemma split_go_head (c : ascii) (acc s : string) :
  exists l,
    split_go (String c EmptyString) O acc s
    = String.rev (String.rev_app (text_before c s) acc) :: l.
Proof.
  revert acc. induction s as [| x s IH]; intros acc.
  - exists []. reflexivity.
  - cbn [split_go String.prefix text_before].
    destruct (ascii_dec c x) as [-> | Hne].
    + rewrite prefix_empty. eexists. reflexivity.
    + apply IH.
Qed.

Lemma getitem_split_head (c : ascii) (s : string) :
  getitem (split (String c EmptyString) s) 0 = Ok (text_before c s).
Proof.
  unfold split. destruct (split_go_head c EmptyString s) as [l ->].
  cbn [getitem nth_error]. rewrite rev_rev_app. reflexivity.
Qed.

Lemma slice_to_app (a b : string) : slice_to (String.length a) (a +:+ b) = a.
Proof.
  induction a as [| x a IH]; [destruct b; reflexivity |].
  rewrite append_cons. cbn [String.length slice_to]. rewrite IH. reflexivity.
Qed.

Lemma slice_from_app (n : nat) (a b : string) :
  slice_from (String.length a + n) (a +:+ b) = slice_from n b.
Proof.
  induction a as [| x a IH]; [reflexivity |].
  rewrite append_cons. exact IH.
Qed.

(** ** The parser *)

Lemma slices_of_log_entry (ts label display action : string) (c : ascii) :
  String.length ts = 19%nat ->
  slice 1 20 (log_entry ts (sensor_data (String c label) display) action) = ts
  /\ slice_from 23 (log_entry ts (sensor_data (String c label) display) action)
     = (label +:+ ": " +:+ display) +:+ ". Action: " +:+ action.
Proof.
  intros Hts. unfold log_entry, sensor_data, slice. split.
  - change (20 - 1)%nat with 19%nat. rewrite <- Hts.
    change (slice_from 1 ("[" +:+ ?x)) with x.
    apply slice_to_app.
  - change 23%nat with (S (19 + 3))%nat. rewrite <- Hts.
    change (slice_from (S ?n) ("[" +:+ ?x)) with (slice_from n x).
    rewrite slice_from_app. reflexivity.
Qed.

(** What extraction returns on every line that the logger writes: the
    logged timestamp, the label without its first character, the display
    value and the action name. *)
Theorem extract_logged_line (ts label display action : string) (c : ascii) :
  String.length ts = 19%nat ->
  contains ": " label = false ->
  contains ": " display = false ->
  contains ". Action: " (label +:+ ": " +:+ display) = false ->
  contains ". Action: " action = false ->
  extract (log_entry ts (sensor_data (String c label) display) action)
  = Ok {| x_timestamp := ts;
          x_sensor_type := label;
          x_sensor_value_unit := strip display;
          x_action_name := strip (text_before "(" (strip action));
          x_is_critical :=
            any (fun crit_action =>
                   contains crit_action (strip (text_before "(" (strip action))))
                CRITICAL_ACTIONS |}.
Proof.
  intros Hts Hl Hd Hs Ha. unfold extract.
  destruct (slices_of_log_entry ts label display action c Hts) as [-> ->].
  rewrite (split_first "." " Action: " _ action eq_refl Hs).
  rewrite (split_whole _ action Ha).
  cbn [getitem nth_error bind].
  rewrite (split_first ":" " " label display eq_refl Hl).
  rewrite (split_whole _ display Hd).
  cbn [getitem nth_error bind].
  rewrite (getitem_split_head "(" (strip action)).
  reflexivity.
Qed.


Lemma extract_no_separator (line : string) :
  contains ". Action: " (slice_from 23 line) = false ->
  extract line = Raise IndexError.
Proof.
  intros H. unfold extract, split.
  destruct (split_go_no_sep ". Action: " EmptyString _ H) as [x ->].
  cbn [getitem nth_error bind].
  destruct (split_go_nonempty ": " O EmptyString x) as (y & l & ->).
  cbn [getitem nth_error bind].
  destruct l as [| z l]; reflexivity.
Qed.

(** The only exception that extraction raises is [IndexError]. *)
Lemma extract_raises_IndexError (line : string) (e : exn) :
  extract line = Raise e -> e = IndexError.
Proof.
  unfold extract, bind, getitem.
  repeat match goal with
    | |- context [ nth_error ?l ?i ] => destruct (nth_error l i)
    end; congruence.
Qed.

Section ParserProperties.

Variable rng : Type.
Variable randint : Z -> Z -> rng -> Z * rng.

Lemma parse_log_entry_no_separator (line : string) (g : rng) :
  contains ". Action: " (slice_from 23 line) = false ->
  parse_log_entry rng randint line g = (Ok None, g).
Proof.
  intros H. unfold parse_log_entry, parse_log_entry_try.
  rewrite (extract_no_separator line H). reflexivity.
Qed.

Lemma parse_log_entry_lacks_separator (line : string) (g : rng) :
  contains ". Action: " line = false ->
  parse_log_entry rng randint line g = (Ok None, g).
Proof.
  intros H. apply parse_log_entry_no_separator.
  destruct (contains _ (slice_from 23 line)) eqn:E; [| reflexivity].
  apply contains_slice_from in E. congruence.
Qed.

Lemma parse_lines_skips (line : string) :
  (forall g, parse_log_entry rng randint (strip line) g = (Ok None, g)) ->
  forall before after acc g,
    parse_lines rng randint (before ++ line :: after)%list acc g
    = parse_lines rng randint (before ++ after)%list acc g.
Proof.
  intros Hnone before after.
  induction before as [| l before IH]; intros acc g; cbn [app parse_lines].
  - rewrite Hnone. reflexivity.
  - destruct (parse_log_entry rng randint (strip l) g) as [[o | e] g'];
      [| reflexivity].
    destruct (truthy o); apply IH.
Qed.

(** C6: [parse_log_entry] returns a record or [None] for every string and
    raises nothing.  A line without the separator [. Action: ], and so every
    line shorter than 33 characters, the empty line included, gives [None]
    and draws no correlation id; in the batch loop such a line is skipped:
    the run goes on as if the line were not in the file. *)
Theorem parse_log_entry_never_raises (line : string) (g : rng) :
  (parse_log_entry rng randint line g = (Ok None, g)
   \/ exists d g', parse_log_entry rng randint line g = (Ok (Some d), g'))
  /\ (contains ". Action: " line = false ->
      parse_log_entry rng randint line g = (Ok None, g))
  /\ ((String.length line < 33)%nat ->
      parse_log_entry rng randint line g = (Ok None, g))
  /\ (contains ". Action: " line = false ->
      forall before after acc g0,
        parse_lines rng randint (before ++ line :: after)%list acc g0
        = parse_lines rng randint (before ++ after)%list acc g0).
Proof.
  split; [| split; [| split]].
  - unfold parse_log_entry, parse_log_entry_try.
    destruct (extract line) as [x | e] eqn:E.
    + right. destruct (randint 1000 9999 g) as [n g']. eauto.
    + left. apply extract_raises_IndexError in E. subst e. reflexivity.
  - apply parse_log_entry_lacks_separator.
  - intros Hlen. apply parse_log_entry_no_separator.
    destruct (contains _ (slice_from 23 line)) eqn:E; [| reflexivity].
    apply contains_length in E. rewrite slice_from_length in E.
    simpl in E. lia.
  - intros H. apply parse_lines_skips. intros g1.
    apply parse_log_entry_lacks_separator, not_contains_strip, H.
Qed.

(** C2: on the example line of the interface the parser returns the
    timestamp, the reading, the action and the criticality of the example,
    and the sensor type without its first letter. *)
Theorem parse_example_line (g : rng) :
  exists d,
    fst (parse_log_entry rng randint
           "[2025-01-01 00:00:00] Moisture: 35.0%. Action: Pump ON (Irrigation START)"
           g) = Ok (Some d)
    /\ get "Timestamp" d = Some "2025-01-01 00:00:00"
    /\ get "Sensor_Type" d = Some "oisture"
    /\ get "Sensor_Type" d <> Some "Moisture"
    /\ get "Sensor_Reading" d = Some "35.0%"
    /\ get "Actuator_Action" d = Some "Pump ON"
    /\ get "Is_Critical" d = Some "Yes".
Proof.
  unfold parse_log_entry, parse_log_entry_try.
  replace (extract _) with
    (Ok {| x_timestamp := "2025-01-01 00:00:00";
           x_sensor_type := "oisture";
           x_sensor_value_unit := "35.0%";
           x_action_name := "Pump ON";
           x_is_critical := true |})
    by (vm_compute; reflexivity).
  destruct (randint 1000 9999 g) as [n g'].
  eexists. split; [reflexivity |].
  cbn. repeat split; congruence.
Qed.

(** C1: the line that the controller logs when it starts the pump does not
    round-trip: the parser returns the logged timestamp, display value and
    action name, and the metric label without its first letter. *)
Theorem round_trip_drops_first_letter (g : rng) :
  exists d,
    fst (parse_log_entry rng randint
           (log_entry "2025-12-05 10:55:01"
              (sensor_data "Soil_Moisture" "35.0%")
              "Pump ON (Irrigation START)")
           g) = Ok (Some d)
    /\ get "Timestamp" d = Some "2025-12-05 10:55:01"
    /\ get "Sensor_Type" d = Some "oil_Moisture"
    /\ get "Sensor_Type" d <> Some "Soil_Moisture"
    /\ get "Sensor_Reading" d = Some "35.0%"
    /\ get "Actuator_Action" d = Some "Pump ON".
Proof.
  unfold parse_log_entry, parse_log_entry_try.
  replace (extract _) with
    (Ok {| x_timestamp := "2025-12-05 10:55:01";
           x_sensor_type := "oil_Moisture";
           x_sensor_value_unit := "35.0%";
           x_action_name := "Pump ON";
           x_is_critical := true |})
    by (vm_compute; reflexivity).
  destruct (randint 1000 9999 g) as [n g'].
  eexists. split; [reflexivity |].
  cbn. repeat split; congruence.
Qed.

Lemma String_cons_neq (s : string) : forall c, String c s <> s.
Proof.
  induction s as [| x s IH]; intros c H; [discriminate H |].
  injection H as _ H. exact (IH _ H).
Qed.

(** X21: the defect is systematic.  On every line that the logger writes,
    with a timestamp of 19 characters and no separator inside the label,
    the display value or the action, the parser recovers the timestamp, the
    display value and the action name, and returns the label without its
    first character. *)
Lemma logged_label_loses_first_character
  (ts label display action : string) (c : ascii) (g : rng) :
  String.length ts = 19%nat ->
  contains ": " label = false ->
  contains ": " display = false ->
  contains ". Action: " (label +:+ ": " +:+ display) = false ->
  contains ". Action: " action = false ->
  exists d,
    fst (parse_log_entry rng randint
           (log_entry ts (sensor_data (String c label) display) action) g)
    = Ok (Some d)
    /\ get "Timestamp" d = Some ts
    /\ get "Sensor_Type" d = Some label
    /\ get "Sensor_Type" d <> Some (String c label)
    /\ get "Sensor_Reading" d = Some (strip display)
    /\ get "Actuator_Action" d = Some (strip (text_before "(" (strip action))).
Proof.
  intros Hts Hl Hd Hs Ha. unfold parse_log_entry, parse_log_entry_try.
  rewrite (extract_logged_line ts label display action c Hts Hl Hd Hs Ha).
  destruct (randint 1000 9999 g) as [n g'].
  eexists. split; [reflexivity |].
  cbn. repeat split; try reflexivity.
  intros H. injection H as H. symmetry in H. exact (String_cons_neq _ _ H).
Qed.

End ParserProperties.

Lemma parse_log_entry_never_raises_witness :
  parse_log_entry nat counter_randint "" O = (Ok None, O)
  /\ parse_log_entry nat counter_randint
       "[2025-01-01 00:00:00] Moisture: 35.0% Pump ON" O = (Ok None, O).
Proof.
  split.
  - destruct (parse_log_entry_never_raises nat counter_randint "" O)
      as (_ & _ & H & _).
    apply H. simpl. lia.
  - destruct (parse_log_entry_never_raises nat counter_randint
                "[2025-01-01 00:00:00] Moisture: 35.0% Pump ON" O)
      as (_ & H & _).
    apply H. reflexivity.
Defined.

(** ** The batch exporter *)

Section BatchProperties.

Variable rng : Type.
Variable randint : Z -> Z -> rng -> Z * rng.
Variable csv_row : list string -> string.

Lemma parse_log_entry_cases (line : string) (g : rng) :
  parse_log_entry rng randint line g = (Ok None, g)
  \/ exists x n g',
      parse_log_entry rng randint line g = (Ok (Some (record_of x n)), g').
Proof.
  unfold parse_log_entry, parse_log_entry_try.
  destruct (extract line) as [x | e] eqn:E.
  - right. destruct (randint 1000 9999 g) as [n g']. eauto.
  - left. apply extract_raises_IndexError in E. subst e. reflexivity.
Qed.

(** The loop collects the records in file order. *)
Lemma parse_lines_in_file_order (lines : list string) :
  forall acc g, exists g',
    parse_lines rng randint lines acc g
    = (Ok (acc ++ records_in_file_order rng randint lines g)%list, g').
Proof.
  induction lines as [| line rest IH]; intros acc g;
    cbn [parse_lines records_in_file_order].
  - exists g. rewrite app_nil_r. reflexivity.
  - destruct (parse_log_entry_cases (strip line) g) as [-> | (x & n & g1 & ->)].
    + cbn [truthy]. apply IH.
    + assert (truthy (Some (record_of x n)) = true) as -> by reflexivity.
      change (default [] (Some (record_of x n))) with (record_of x n).
      destruct (IH (acc ++ [record_of x n])%list g1) as [g' E].
      exists g'. rewrite <- app_assoc in E. exact E.
Qed.

Lemma records_in_file_order_are_records (lines : list string) :
  forall g, Forall is_record (records_in_file_order rng randint lines g).
Proof.
  induction lines as [| line rest IH]; intros g;
    cbn [records_in_file_order]; [constructor |].
  destruct (parse_log_entry_cases (strip line) g) as [-> | (x & n & g1 & ->)].
  - apply IH.
  - constructor; [exists x, n; reflexivity | apply IH].
Qed.

(** All records have the same fields, so no row is rejected. *)
Lemma dict_to_list_record (x x' : extracted) (n n' : Z) :
  dict_to_list (keys (record_of x n)) (record_of x' n')
  = Ok (values (record_of x' n')).
Proof. reflexivity. Qed.

Lemma writerows_records (x : extracted) (n : Z) (rows : list dict) :
  Forall is_record rows ->
  forall csvfile,
    writerows csv_row (keys (record_of x n)) rows csvfile
    = (Ok tt, (csvfile ++ map (fun d => csv_row (values d)) rows)%list).
Proof.
  induction 1 as [| d rows (x' & n' & ->) _ IH]; intros csvfile;
    cbn [writerows map].
  - rewrite app_nil_r. reflexivity.
  - rewrite dict_to_list_record, IH, <- app_assoc. reflexivity.
Qed.

(** C7: when the log yields at least one record, the export file holds the
    row of the first record's field names, followed by one row for each
    record, in the order in which the records were parsed from the log. *)
Theorem export_header_and_rows_in_order
  (fs : files) (g : rng) (lines : list string) (first : dict) (rest : list dict) :
  fs !! LOCAL_LOG_FILE = Some lines ->
  records_in_file_order rng randint lines g = first :: rest ->
  exists g',
    read_local_buffer_and_sync rng randint csv_row fs g
    = (Ok tt,
       <[CLOUD_READY_CSV :=
           csv_row (keys first)
           :: map (fun d => csv_row (values d)) (first :: rest)]> fs,
       g').
Proof.
  intros Hlog Hrec. unfold read_local_buffer_and_sync. rewrite Hlog.
  destruct (parse_lines_in_file_order lines [] g) as [g' ->].
  pose proof (records_in_file_order_are_records lines g) as Hall.
  cbn [app]. rewrite Hrec in Hall |- *.
  pose proof Hall as Hfirst. apply Forall_inv in Hfirst.
  destruct Hfirst as (x & n & ->).
  rewrite (writerows_records x n _ Hall). exists g'. reflexivity.
Qed.

(** C9: a run of the export leaves the local log as it was. *)
Theorem export_leaves_log_untouched (fs : files) (g : rng) :
  snd (fst (read_local_buffer_and_sync rng randint csv_row fs g))
    !! LOCAL_LOG_FILE
  = fs !! LOCAL_LOG_FILE.
Proof.
  unfold read_local_buffer_and_sync.
  destruct (fs !! LOCAL_LOG_FILE) as [lines |] eqn:Hlog; [| exact Hlog].
  destruct (parse_lines rng randint lines [] g) as [[[| first rest] | e] g'];
    cbn [fst snd]; try exact Hlog.
  destruct (writerows _ _ _ _) as [r csvfile]. cbn [fst snd].
  rewrite lookup_insert_ne; [exact Hlog | discriminate].
Qed.

(** C10: when the log exists and none of its lines parses, the run ends
    before the export: the file system is unchanged, so an export file of an
    earlier run keeps its contents and none is created. *)
Theorem no_records_no_export (fs : files) (g : rng) (lines : list string) :
  fs !! LOCAL_LOG_FILE = Some lines ->
  Forall (fun line =>
            forall g', fst (parse_log_entry rng randint (strip line) g') = Ok None)
         lines ->
  read_local_buffer_and_sync rng randint csv_row fs g = (Ok tt, fs, g)
  /\ snd (fst (read_local_buffer_and_sync rng randint csv_row fs g))
       !! CLOUD_READY_CSV
     = fs !! CLOUD_READY_CSV.
Proof.
  intros Hlog Hnone.
  assert (forall acc, parse_lines rng randint lines acc g = (Ok acc, g)) as Hloop.
  { clear Hlog. induction Hnone as [| line rest Hline _ IH]; intros acc;
      cbn [parse_lines]; [reflexivity |].
    specialize (Hline g).
    destruct (parse_log_entry_cases (strip line) g) as [E | (x & n & g1 & E)];
      rewrite E in Hline |- *; [apply IH | discriminate Hline]. }
  unfold read_local_buffer_and_sync. rewrite Hlog, Hloop.
  split; reflexivity.
Qed.

End BatchProperties.

Lemma export_header_and_rows_in_order_witness :
  exists g',
    read_local_buffer_and_sync nat counter_randint comma_row sample_fs O
    = (Ok tt,
       <[CLOUD_READY_CSV :=
           comma_row (keys sample_first)
           :: map (fun d => comma_row (values d)) [sample_first; sample_second]]>
         sample_fs,
       g').
Proof.
  apply (export_header_and_rows_in_order nat counter_randint comma_row
           sample_fs O sample_log sample_first [sample_second]).
  - reflexivity.
  - vm_compute. reflexivity.
Defined.

Lemma no_records_no_export_witness :
  read_local_buffer_and_sync nat counter_randint comma_row stale_fs O
  = (Ok tt, stale_fs, O)
  /\ snd (fst (read_local_buffer_and_sync nat counter_randint comma_row stale_fs O))
       !! CLOUD_READY_CSV
     = stale_fs !! CLOUD_READY_CSV.
Proof.
  apply (no_records_no_export nat counter_randint comma_row stale_fs O
           ["sensor bus reset" +:+ LF; LF]).
  - reflexivity.
  - repeat constructor.
Defined.

(** * Further properties of the controller *)

Lemma below_excludes_above (x lo hi : float) :
  lt lo hi = true -> lt x lo = true -> gt x hi = false.
Proof.
  intros Hlh Hx. unfold gt. apply lt_asym. exact (lt_trans _ _ _ Hx Hlh).
Qed.

Lemma above_excludes_below (x lo hi : float) :
  lt lo hi = true -> gt x hi = true -> lt x lo = false.
Proof.
  intros Hlh Hx. apply lt_asym. exact (lt_trans _ _ _ Hlh Hx).
Qed.

Lemma switches_set_pump (b : bool) (a : ActuatorState) :
  switches Pump b a (set_pump b a).
Proof. split; [reflexivity |]. intros [] Hd; try reflexivity. congruence. Qed.

Lemma switches_set_led_light (b : bool) (a : ActuatorState) :
  switches Led b a (set_led_light b a).
Proof. split; [reflexivity |]. intros [] Hd; try reflexivity. congruence. Qed.

Lemma switches_set_shade_net (b : bool) (a : ActuatorState) :
  switches Shade b a (set_shade_net b a).
Proof. split; [reflexivity |]. intros [] Hd; try reflexivity. congruence. Qed.

(** X1: the temperature category.  Above [TARGET_TEMP_HIGH] with the fan
    OFF it switches the fan, and only the fan, ON; below
    [TARGET_TEMP_OPTIMAL] with the fan ON it switches the fan, and only the
    fan, OFF; for a reading between the two thresholds, bounds included,
    nothing changes and the category logs no-change with the fan's state. *)
Theorem temperature_fan_hysteresis
  (fmt_1f : float -> string) (t : float) (a : ActuatorState) :
  (gt t TARGET_TEMP_HIGH = true -> fan a = false ->
   switches Fan true a (fst (temperature_control fmt_1f t a))
   /\ snd (snd (temperature_control fmt_1f t a)) = "Fan ON (Cooling START)")
  /\ (lt t TARGET_TEMP_OPTIMAL = true -> fan a = true ->
      switches Fan false a (fst (temperature_control fmt_1f t a))
      /\ snd (snd (temperature_control fmt_1f t a)) = "Fan OFF (Cooling STOP)")
  /\ (le TARGET_TEMP_OPTIMAL t = true -> le t TARGET_TEMP_HIGH = true ->
      fst (temperature_control fmt_1f t a) = a
      /\ snd (snd (temperature_control fmt_1f t a))
         = "Temperature: No Change (" +:+ on_off (fan a) +:+ ")").
Proof.
  unfold temperature_control. split; [| split].
  - intros Hgt Hf. rewrite Hgt, Hf. simpl.
    split; [apply switches_set_fan | reflexivity].
  - intros Hlt Hf.
    rewrite (below_excludes_above t TARGET_TEMP_OPTIMAL TARGET_TEMP_HIGH eq_refl Hlt).
    rewrite Hlt, Hf. simpl.
    split; [apply switches_set_fan | reflexivity].
  - intros Hlo Hhi. apply le_not_gt in Hlo, Hhi.
    change (lt t TARGET_TEMP_OPTIMAL = false) in Hlo.
    rewrite Hlo, Hhi. simpl. split; reflexivity.
Qed.

Lemma temperature_fan_hysteresis_witness :
  fan (fst (temperature_control fmt_35_0 (float_of_int 35) all_off)) = true
  /\ fan (fst (temperature_control fmt_25_0 (float_of_int 25) fan_on)) = false
  /\ fst (temperature_control fmt_30_0 (float_of_int 30) fan_on) = fan_on.
Proof.
  destruct (temperature_fan_hysteresis fmt_35_0 (float_of_int 35) all_off)
    as (H1 & _ & _).
  destruct (temperature_fan_hysteresis fmt_25_0 (float_of_int 25) fan_on)
    as (_ & H2 & _).
  destruct (temperature_fan_hysteresis fmt_30_0 (float_of_int 30) fan_on)
    as (_ & _ & H3).
  split; [| split].
  - apply H1; reflexivity.
  - apply H2; reflexivity.
  - apply H3; reflexivity.
Defined.



Ltac solve_switches :=
  split; [reflexivity | intros [] ?; try reflexivity; congruence].

(** X3: in a cycle a category changes the state of at most one device, and
    only of a device of its own: the pump for moisture, the fan for
    temperature, the mister or the fan for humidity, the LED or the shade
    net for light.  Every other device keeps its state. *)
Theorem category_toggles_at_most_one_device
  (fmt_1f fmt_0f : float -> string) (c : category) (f : Frame) (a : ActuatorState) :
  fst (control fmt_1f fmt_0f c f a) = a
  \/ exists d,
      drives c d = true
      /\ switches d (negb (is_active d a)) a (fst (control fmt_1f fmt_0f c f a)).
Proof.
  destruct a as [p fn m l s].
  destruct c; cbn [control];
    unfold moisture_control, temperature_control, humidity_control, light_control;
    cbn [pump fan mister led_light shade_net];
    repeat match goal with
      | |- context [ lt ?x ?y ] => destruct (lt x y)
      | |- context [ gt ?x ?y ] => destruct (gt x y)
      end;
    destruct p, fn, m, l, s; cbn [andb Bool.eqb fst];
    try (left; reflexivity).
  all: right.
  all: first
         [ exists Pump; split; [reflexivity | solve_switches]
         | exists Fan; split; [reflexivity | solve_switches]
         | exists Mister; split; [reflexivity | solve_switches]
         | exists Led; split; [reflexivity | solve_switches]
         | exists Shade; split; [reflexivity | solve_switches] ].
Qed.

(** X4: readings inside a dead band change nothing.  A humidity between
    [TARGET_HUMIDITY_LOW] and [TARGET_HUMIDITY_HIGH], bounds included,
    leaves every device as it is; a light reading between
    [TARGET_LIGHT_LOW] and [TARGET_LIGHT_LOW + 500] leaves the LED as it is;
    a light reading between [TARGET_LIGHT_HIGH - 1000] and
    [TARGET_LIGHT_HIGH] leaves the shade net as it is. *)
Theorem dead_band_keeps_state
  (fmt : float -> string) (x : float) (a : ActuatorState) :
  (le TARGET_HUMIDITY_LOW x = true -> le x TARGET_HUMIDITY_HIGH = true ->
   fst (humidity_control fmt x a) = a)
  /\ (le TARGET_LIGHT_LOW x = true ->
      le x (float_add TARGET_LIGHT_LOW (float_of_int 500)) = true ->
      led_light (fst (light_control fmt x a)) = led_light a)
  /\ (le (float_sub TARGET_LIGHT_HIGH (float_of_int 1000)) x = true ->
      le x TARGET_LIGHT_HIGH = true ->
      shade_net (fst (light_control fmt x a)) = shade_net a).
Proof.
  split; [| split]; intros Hlo Hhi; apply le_not_gt in Hlo, Hhi.
  - change (lt x TARGET_HUMIDITY_LOW = false) in Hlo.
    unfold humidity_control. rewrite Hlo, Hhi. reflexivity.
  - change (lt x TARGET_LIGHT_LOW = false) in Hlo.
    unfold light_control. rewrite Hlo, Hhi. cbn [andb].
    destruct (gt x TARGET_LIGHT_HIGH && _); [reflexivity |].
    destruct (lt x _ && _); reflexivity.
  - change (lt x (float_sub TARGET_LIGHT_HIGH (float_of_int 1000)) = false) in Hlo.
    unfold light_control. rewrite Hlo, Hhi. cbn [andb].
    destruct (lt x TARGET_LIGHT_LOW && _); [reflexivity |].
    destruct (gt x _ && _); reflexivity.
Qed.

Lemma dead_band_keeps_state_witness :
  fst (humidity_control fmt_70_0 (float_of_int 70) mister_on) = mister_on
  /\ led_light (fst (light_control fmt_10000 (float_of_int 15200) led_on_shade_on))
     = true
  /\ shade_net (fst (light_control fmt_10000 (float_of_int 29500) led_on_shade_on))
     = true.
Proof.
  destruct (dead_band_keeps_state fmt_70_0 (float_of_int 70) mister_on)
    as (H1 & _ & _).
  destruct (dead_band_keeps_state fmt_10000 (float_of_int 15200) led_on_shade_on)
    as (_ & H2 & _).
  destruct (dead_band_keeps_state fmt_10000 (float_of_int 29500) led_on_shade_on)
    as (_ & _ & H3).
  split; [| split].
  - apply H1; reflexivity.
  - apply H2; reflexivity.
  - apply H3; reflexivity.
Defined.

Lemma nan_compares_false (x : float) :
  lt S754_nan x = false /\ gt S754_nan x = false.
Proof. split; destruct x; reflexivity. Qed.

(** X5: a reading that is not a number switches nothing: the category
    leaves every device as it is. *)
Theorem nan_reading_changes_nothing
  (fmt_1f fmt_0f : float -> string) (c : category) (f : Frame) (a : ActuatorState) :
  reading c f = S754_nan ->
  fst (control fmt_1f fmt_0f c f a) = a.
Proof.
  intros H. destruct c; cbn [control reading] in *; rewrite H;
    unfold moisture_control, temperature_control, humidity_control, light_control;
    repeat match goal with
      | |- context [ lt S754_nan ?y ] =>
          rewrite (proj1 (nan_compares_false y))
      | |- context [ gt S754_nan ?y ] =>
          rewrite (proj2 (nan_compares_false y))
      end;
    reflexivity.
Qed.

Lemma nan_reading_changes_nothing_witness :
  fst (control fmt_35_0 fmt_10000 Light nan_frame led_on_shade_on)
  = led_on_shade_on.
Proof.
  apply (nan_reading_changes_nothing fmt_35_0 fmt_10000 Light nan_frame
           led_on_shade_on).
  reflexivity.
Defined.



(** ** Cycles *)

Section CycleProperties.

Variable fmt_1f : float -> string.
Variable fmt_0f : float -> string.
Variable clock : Type.
Variable strftime_now : clock -> string * clock.


Lemma actuators_log_action (sd action : string) (w : World clock) :
  actuators clock (log_action clock strftime_now sd action w)
  = actuators clock w.
Proof. unfold log_action. destruct (strftime_now _). reflexivity. Qed.

Lemma actuators_run_category (c : category) (f : Frame) (w : World clock) :
  actuators clock (run_category fmt_1f fmt_0f clock strftime_now c f w)
  = fst (control fmt_1f fmt_0f c f (actuators clock w)).
Proof.
  unfold run_category.
  destruct (control fmt_1f fmt_0f c f (actuators clock w)) as [a [sd action]].
  rewrite actuators_log_action. reflexivity.
Qed.

Lemma actuators_cycle (f : Frame) (w : World clock) :
  actuators clock (cycle fmt_1f fmt_0f clock strftime_now f w)
  = fst (control fmt_1f fmt_0f Light f
      (fst (control fmt_1f fmt_0f Humidity f
         (fst (control fmt_1f fmt_0f Temperature f
            (fst (control fmt_1f fmt_0f Moisture f (actuators clock w)))))))).
Proof. unfold cycle. rewrite !actuators_run_category. reflexivity. Qed.

(** A category leaves the devices of the other categories alone. *)
Lemma control_other_devices (c : category) (f : Frame) (a : ActuatorState)
  (d : actuator) :
  drives c d = false ->
  is_active d (fst (control fmt_1f fmt_0f c f a)) = is_active d a.
Proof.
  destruct c; cbn [control];
    unfold moisture_control, temperature_control, humidity_control, light_control;
    repeat match goal with
      | |- context [ if ?b then _ else _ ] => destruct b
      end;
    destruct d; intros H; try discriminate H; reflexivity.
Qed.

(** What a category does to its devices depends on their states alone. *)
Lemma control_local (c : category) (f : Frame) (a1 a2 : ActuatorState) :
  (forall d, drives c d = true -> is_active d a1 = is_active d a2) ->
  forall d, drives c d = true ->
    is_active d (fst (control fmt_1f fmt_0f c f a1))
    = is_active d (fst (control fmt_1f fmt_0f c f a2)).
Proof.
  intros H d Hd.
  destruct c; cbn [control];
    unfold moisture_control, temperature_control, humidity_control, light_control.
  - pose proof (H Pump eq_refl) as Hp. cbn [is_active] in Hp. rewrite Hp.
    destruct d; try discriminate Hd.
    repeat (destruct (_ && _); [reflexivity |]). exact Hp.
  - pose proof (H Fan eq_refl) as Hp. cbn [is_active] in Hp. rewrite Hp.
    destruct d; try discriminate Hd.
    repeat (destruct (_ && _); [reflexivity |]). exact Hp.
  - pose proof (H Mister eq_refl) as Hm. pose proof (H Fan eq_refl) as Hf.
    cbn [is_active] in Hm, Hf. rewrite Hm, Hf.
    destruct d; try discriminate Hd;
      repeat (destruct (_ && _); [first [reflexivity | assumption] |]);
      assumption.
  - pose proof (H Led eq_refl) as Hl. pose proof (H Shade eq_refl) as Hs.
    cbn [is_active] in Hl, Hs. rewrite Hl, Hs.
    destruct d; try discriminate Hd;
      repeat (destruct (_ && _); [first [reflexivity | assumption] |]);
      assumption.
Qed.

(** The mister is decided by the humidity and its own state. *)
Lemma humidity_mister_local (h : float) (a1 a2 : ActuatorState) :
  mister a1 = mister a2 ->
  mister (fst (humidity_control fmt_1f h a1))
  = mister (fst (humidity_control fmt_1f h a2)).
Proof.
  intros H. unfold humidity_control. rewrite H.
  destruct (lt h TARGET_HUMIDITY_LOW), (gt h TARGET_HUMIDITY_HIGH),
    (mister a2) eqn:E, (fan a1), (fan a2); cbn; congruence.
Qed.

(** The four stages of a cycle: each category leaves the devices of the
    others as the stage before left them. *)
Lemma cycle_stages (f : Frame) (a : ActuatorState) :
  (forall d, d <> Pump ->
     is_active d (fst (control fmt_1f fmt_0f Moisture f a)) = is_active d a)
  /\ (forall d, d <> Fan ->
        is_active d (fst (control fmt_1f fmt_0f Temperature f a)) = is_active d a)
  /\ (forall d, d <> Mister -> d <> Fan ->
        is_active d (fst (control fmt_1f fmt_0f Humidity f a)) = is_active d a)
  /\ (forall d, d <> Led -> d <> Shade ->
        is_active d (fst (control fmt_1f fmt_0f Light f a)) = is_active d a).
Proof.
  repeat split; intros; apply control_other_devices;
    destruct d; try reflexivity; congruence.
Qed.

(** X7: the categories of a cycle are independent, the shared fan apart.
    After a cycle the pump is what the moisture rule alone makes of the
    state before the cycle, the mister what the humidity rule alone makes
    of it, the LED and the shade net what the light rule alone makes of it;
    the fan is what the humidity rule makes of the state that the
    temperature rule leaves. *)
Theorem cycle_device_wise (f : Frame) (w : World clock) :
  pump (actuators clock (cycle fmt_1f fmt_0f clock strftime_now f w))
  = pump (fst (control fmt_1f fmt_0f Moisture f (actuators clock w)))
  /\ mister (actuators clock (cycle fmt_1f fmt_0f clock strftime_now f w))
     = mister (fst (control fmt_1f fmt_0f Humidity f (actuators clock w)))
  /\ led_light (actuators clock (cycle fmt_1f fmt_0f clock strftime_now f w))
     = led_light (fst (control fmt_1f fmt_0f Light f (actuators clock w)))
  /\ shade_net (actuators clock (cycle fmt_1f fmt_0f clock strftime_now f w))
     = shade_net (fst (control fmt_1f fmt_0f Light f (actuators clock w)))
  /\ fan (actuators clock (cycle fmt_1f fmt_0f clock strftime_now f w))
     = fan (fst (control fmt_1f fmt_0f Humidity f
                   (fst (control fmt_1f fmt_0f Temperature f
                           (actuators clock w))))).
Proof.
  rewrite actuators_cycle. set (a := actuators clock w).
  set (a1 := fst (control fmt_1f fmt_0f Moisture f a)).
  set (a2 := fst (control fmt_1f fmt_0f Temperature f a1)).
  set (a3 := fst (control fmt_1f fmt_0f Humidity f a2)).
  destruct (cycle_stages f a) as (F1 & _).
  destruct (cycle_stages f a1) as (_ & F2 & _).
  destruct (cycle_stages f a2) as (_ & _ & F3 & _).
  destruct (cycle_stages f a3) as (_ & _ & _ & F4).
  fold a1 in F1. fold a2 in F2. fold a3 in F3.
  split; [| split; [| split; [| split]]].
  - change (is_active Pump (fst (control fmt_1f fmt_0f Light f a3))
            = is_active Pump a1).
    rewrite F4, F3, F2; congruence.
  - change (is_active Mister (fst (control fmt_1f fmt_0f Light f a3))
            = mister (fst (control fmt_1f fmt_0f Humidity f a))).
    rewrite F4 by congruence.
    apply humidity_mister_local.
    change (is_active Mister a2 = is_active Mister a).
    rewrite F2, F1; congruence.
  - change (is_active Led (fst (control fmt_1f fmt_0f Light f a3))
            = is_active Led (fst (control fmt_1f fmt_0f Light f a))).
    apply control_local; [| reflexivity].
    intros d Hd. rewrite F3, F2, F1; destruct d; try discriminate Hd; congruence.
  - change (is_active Shade (fst (control fmt_1f fmt_0f Light f a3))
            = is_active Shade (fst (control fmt_1f fmt_0f Light f a))).
    apply control_local; [| reflexivity].
    intros d Hd. rewrite F3, F2, F1; destruct d; try discriminate Hd; congruence.
  - change (is_active Fan (fst (control fmt_1f fmt_0f Light f a3))
            = is_active Fan
                (fst (control fmt_1f fmt_0f Humidity f
                        (fst (control fmt_1f fmt_0f Temperature f a))))).
    rewrite F4 by congruence.
    apply control_local; [| reflexivity].
    intros d Hd. destruct d; try discriminate Hd.
    + apply control_local; [| reflexivity].
      intros d' Hd'. destruct d'; try discriminate Hd'. apply F1. congruence.
    + rewrite F2, F1 by congruence. symmetry.
      apply control_other_devices. reflexivity.
Qed.

Lemma temperature_stops_fan (t : float) (a : ActuatorState) :
  lt t TARGET_TEMP_OPTIMAL = true ->
  fan a = true ->
  temperature_control fmt_1f t a
  = (set_fan false a,
     ("Temperature: " +:+ fmt_1f t +:+ degree_C, "Fan OFF (Cooling STOP)")).
Proof.
  intros Ht Hf. unfold temperature_control.
  rewrite (below_excludes_above _ TARGET_TEMP_OPTIMAL TARGET_TEMP_HIGH eq_refl Ht).
  rewrite Ht, Hf. reflexivity.
Qed.

Lemma humidity_starts_fan (h : float) (a : ActuatorState) :
  gt h TARGET_HUMIDITY_HIGH = true ->
  mister a = false ->
  fan a = false ->
  humidity_control fmt_1f h a
  = (set_fan true a,
     ("Humidity: " +:+ fmt_1f h +:+ "%", "Fan ON (Dehumidify START)")).
Proof.
  intros Hh Hm Hf. unfold humidity_control.
  rewrite (above_excludes_below _ TARGET_HUMIDITY_LOW TARGET_HUMIDITY_HIGH
             eq_refl Hh).
  rewrite Hh, Hm, Hf. reflexivity.
Qed.

(** X8: the shared fan can be switched twice in one cycle.  With the fan ON
    and the mister OFF, a temperature below [TARGET_TEMP_OPTIMAL] and a
    humidity above [TARGET_HUMIDITY_HIGH], the temperature category stops
    the fan and the humidity category of the same cycle starts it again;
    the cycle ends with the fan ON and the mister OFF, so the next cycle
    with such readings does the same. *)
Theorem fan_stopped_and_restarted (f : Frame) (w : World clock) :
  lt (current_temp f) TARGET_TEMP_OPTIMAL = true ->
  gt (current_humidity f) TARGET_HUMIDITY_HIGH = true ->
  fan (actuators clock w) = true ->
  mister (actuators clock w) = false ->
  snd (snd (control fmt_1f fmt_0f Temperature f
              (fst (control fmt_1f fmt_0f Moisture f (actuators clock w)))))
  = "Fan OFF (Cooling STOP)"
  /\ snd (snd (control fmt_1f fmt_0f Humidity f
                 (fst (control fmt_1f fmt_0f Temperature f
                         (fst (control fmt_1f fmt_0f Moisture f
                                 (actuators clock w)))))))
     = "Fan ON (Dehumidify START)"
  /\ fan (actuators clock (cycle fmt_1f fmt_0f clock strftime_now f w)) = true
  /\ mister (actuators clock (cycle fmt_1f fmt_0f clock strftime_now f w))
     = false.
Proof.
  intros Ht Hh Hfan Hmister.
  rewrite actuators_cycle.
  set (a1 := fst (control fmt_1f fmt_0f Moisture f (actuators clock w))).
  assert (fan a1 = true /\ mister a1 = false) as [Hf1 Hm1].
  { split.
    - rewrite <- Hfan. apply (control_other_devices Moisture f _ Fan). reflexivity.
    - rewrite <- Hmister.
      apply (control_other_devices Moisture f _ Mister). reflexivity. }
  cbn [control].
  rewrite (temperature_stops_fan _ a1 Ht Hf1). cbn [fst snd].
  rewrite (humidity_starts_fan _ (set_fan false a1) Hh Hm1 eq_refl).
  cbn [fst snd].
  split; [reflexivity | split; [reflexivity | split]].
  - apply (control_other_devices Light f (set_fan true (set_fan false a1)) Fan).
    reflexivity.
  - rewrite <- Hm1.
    apply (control_other_devices Light f (set_fan true (set_fan false a1)) Mister).
    reflexivity.
Qed.

(** X22: no device switches without its threshold being crossed.  Over a
    cycle the pump goes ON only on a moisture below [TARGET_MOISTURE_LOW]
    and OFF only on one above [TARGET_MOISTURE_HIGH]; the mister goes ON
    only on a humidity below [TARGET_HUMIDITY_LOW] and OFF only on one above
    [TARGET_HUMIDITY_HIGH]; the LED goes ON only on a light below
    [TARGET_LIGHT_LOW] and OFF only on one above [TARGET_LIGHT_LOW + 500];
    the shade net goes ON only on a light above [TARGET_LIGHT_HIGH] and OFF
    only on one below [TARGET_LIGHT_HIGH - 1000]; the fan goes ON only on a
    temperature above [TARGET_TEMP_HIGH] or a humidity above
    [TARGET_HUMIDITY_HIGH], and is OFF after a cycle that it entered ON only
    on a temperature below [TARGET_TEMP_OPTIMAL]. *)
Theorem switching_needs_threshold (f : Frame) (w : World clock) :
  (pump (actuators clock w) = false ->
   pump (actuators clock (cycle fmt_1f fmt_0f clock strftime_now f w)) = true ->
   lt (current_moisture f) TARGET_MOISTURE_LOW = true)
  /\ (pump (actuators clock w) = true ->
      pump (actuators clock (cycle fmt_1f fmt_0f clock strftime_now f w)) = false ->
      gt (current_moisture f) TARGET_MOISTURE_HIGH = true)
  /\ (mister (actuators clock w) = false ->
      mister (actuators clock (cycle fmt_1f fmt_0f clock strftime_now f w)) = true ->
      lt (current_humidity f) TARGET_HUMIDITY_LOW = true)
  /\ (mister (actuators clock w) = true ->
      mister (actuators clock (cycle fmt_1f fmt_0f clock strftime_now f w)) = false ->
      gt (current_humidity f) TARGET_HUMIDITY_HIGH = true)
  /\ (led_light (actuators clock w) = false ->
      led_light (actuators clock (cycle fmt_1f fmt_0f clock strftime_now f w))
      = true ->
      lt (current_light f) TARGET_LIGHT_LOW = true)
  /\ (led_light (actuators clock w) = true ->
      led_light (actuators clock (cycle fmt_1f fmt_0f clock strftime_now f w))
      = false ->
      gt (current_light f) (float_add TARGET_LIGHT_LOW (float_of_int 500)) = true)
  /\ (shade_net (actuators clock w) = false ->
      shade_net (actuators clock (cycle fmt_1f fmt_0f clock strftime_now f w))
      = true ->
      gt (current_light f) TARGET_LIGHT_HIGH = true)
  /\ (shade_net (actuators clock w) = true ->
      shade_net (actuators clock (cycle fmt_1f fmt_0f clock strftime_now f w))
      = false ->
      lt (current_light f) (float_sub TARGET_LIGHT_HIGH (float_of_int 1000))
      = true)
  /\ (fan (actuators clock w) = false ->
      fan (actuators clock (cycle fmt_1f fmt_0f clock strftime_now f w)) = true ->
      gt (current_temp f) TARGET_TEMP_HIGH = true
      \/ gt (current_humidity f) TARGET_HUMIDITY_HIGH = true)
  /\ (fan (actuators clock w) = true ->
      fan (actuators clock (cycle fmt_1f fmt_0f clock strftime_now f w)) = false ->
      lt (current_temp f) TARGET_TEMP_OPTIMAL = true).
Proof.
  rewrite actuators_cycle. set (a := actuators clock w).
  set (a1 := fst (control fmt_1f fmt_0f Moisture f a)).
  set (a2 := fst (control fmt_1f fmt_0f Temperature f a1)).
  set (a3 := fst (control fmt_1f fmt_0f Humidity f a2)).
  set (a4 := fst (control fmt_1f fmt_0f Light f a3)).
  destruct (cycle_stages f a) as (F1 & _).
  destruct (cycle_stages f a1) as (_ & F2 & _).
  destruct (cycle_stages f a2) as (_ & _ & F3 & _).
  destruct (cycle_stages f a3) as (_ & _ & _ & F4).
  fold a1 in F1. fold a2 in F2. fold a3 in F3. fold a4 in F4.
  assert (pump a4 = pump a1) as Ep.
  { change (is_active Pump a4 = is_active Pump a1).
    rewrite F4, F3, F2; congruence. }
  assert (mister a4 = mister a3 /\ mister a2 = mister a) as [Em3 Em2].
  { split.
    - change (is_active Mister a4 = is_active Mister a3). apply F4; congruence.
    - change (is_active Mister a2 = is_active Mister a).
      rewrite F2, F1; congruence. }
  assert (led_light a3 = led_light a /\ shade_net a3 = shade_net a) as [El Es].
  { split.
    - change (is_active Led a3 = is_active Led a).
      rewrite F3, F2, F1; congruence.
    - change (is_active Shade a3 = is_active Shade a).
      rewrite F3, F2, F1; congruence. }
  assert (fan a4 = fan a3 /\ fan a1 = fan a) as [Ef3 Ef1].
  { split.
    - change (is_active Fan a4 = is_active Fan a3). apply F4; congruence.
    - change (is_active Fan a1 = is_active Fan a). apply F1; congruence. }
  rewrite Ep, Em3, Ef3. clear Ep Em3 Ef3 F1 F2 F3 F4.
  split; [| split; [| split; [| split; [| split; [| split; [| split;
    [| split; [| split]]]]]]]]; intros Ha Ha'.
  - unfold a1 in Ha'. cbn [control] in Ha'. unfold moisture_control in Ha'.
    rewrite Ha in Ha'. revert Ha'.
    destruct (lt (current_moisture f) TARGET_MOISTURE_LOW),
      (gt (current_moisture f) TARGET_MOISTURE_HIGH);
      cbn; intros; congruence.
  - unfold a1 in Ha'. cbn [control] in Ha'. unfold moisture_control in Ha'.
    rewrite Ha in Ha'. revert Ha'.
    destruct (lt (current_moisture f) TARGET_MOISTURE_LOW),
      (gt (current_moisture f) TARGET_MOISTURE_HIGH);
      cbn; intros; congruence.
  - unfold a3 in Ha'. cbn [control] in Ha'. unfold humidity_control in Ha'.
    rewrite Em2, Ha in Ha'. revert Ha'.
    destruct (lt (current_humidity f) TARGET_HUMIDITY_LOW),
      (gt (current_humidity f) TARGET_HUMIDITY_HIGH), (fan a2);
      cbn; intros; congruence.
  - unfold a3 in Ha'. cbn [control] in Ha'. unfold humidity_control in Ha'.
    rewrite Em2, Ha in Ha'. revert Ha'.
    destruct (lt (current_humidity f) TARGET_HUMIDITY_LOW),
      (gt (current_humidity f) TARGET_HUMIDITY_HIGH), (fan a2);
      cbn; intros; congruence.
  - unfold a4 in Ha'. cbn [control] in Ha'. unfold light_control in Ha'.
    rewrite El, Es, Ha in Ha'. revert Ha'.
    destruct (lt (current_light f) TARGET_LIGHT_LOW),
      (gt (current_light f) (float_add TARGET_LIGHT_LOW (float_of_int 500))),
      (gt (current_light f) TARGET_LIGHT_HIGH),
      (lt (current_light f) (float_sub TARGET_LIGHT_HIGH (float_of_int 1000))),
      (shade_net a); cbn; intros; congruence.
  - unfold a4 in Ha'. cbn [control] in Ha'. unfold light_control in Ha'.
    rewrite El, Es, Ha in Ha'. revert Ha'.
    destruct (lt (current_light f) TARGET_LIGHT_LOW),
      (gt (current_light f) (float_add TARGET_LIGHT_LOW (float_of_int 500))),
      (gt (current_light f) TARGET_LIGHT_HIGH),
      (lt (current_light f) (float_sub TARGET_LIGHT_HIGH (float_of_int 1000))),
      (shade_net a); cbn; intros; congruence.
  - unfold a4 in Ha'. cbn [control] in Ha'. unfold light_control in Ha'.
    rewrite El, Es, Ha in Ha'. revert Ha'.
    destruct (lt (current_light f) TARGET_LIGHT_LOW),
      (gt (current_light f) (float_add TARGET_LIGHT_LOW (float_of_int 500))),
      (gt (current_light f) TARGET_LIGHT_HIGH),
      (lt (current_light f) (float_sub TARGET_LIGHT_HIGH (float_of_int 1000))),
      (led_light a); cbn; intros; congruence.
  - unfold a4 in Ha'. cbn [control] in Ha'. unfold light_control in Ha'.
    rewrite El, Es, Ha in Ha'. revert Ha'.
    destruct (lt (current_light f) TARGET_LIGHT_LOW),
      (gt (current_light f) (float_add TARGET_LIGHT_LOW (float_of_int 500))),
      (gt (current_light f) TARGET_LIGHT_HIGH),
      (lt (current_light f) (float_sub TARGET_LIGHT_HIGH (float_of_int 1000))),
      (led_light a); cbn; intros; congruence.
  - assert (fan a2 = true -> gt (current_temp f) TARGET_TEMP_HIGH = true) as Ht.
    { unfold a2. cbn [control]. unfold temperature_control. rewrite Ef1, Ha.
      destruct (gt (current_temp f) TARGET_TEMP_HIGH),
        (lt (current_temp f) TARGET_TEMP_OPTIMAL);
        cbn; rewrite ?Ef1, ?Ha; intros; congruence. }
    unfold a3 in Ha'. cbn [control] in Ha'. unfold humidity_control in Ha'.
    revert Ha'.
    destruct (gt (current_humidity f) TARGET_HUMIDITY_HIGH);
      [intros _; right; reflexivity |].
    destruct (lt (current_humidity f) TARGET_HUMIDITY_LOW), (mister a2);
      cbn; intros Ha'; left; apply Ht; exact Ha'.
  - assert (fan a2 = false) as Hf2.
    { unfold a3 in Ha'. cbn [control] in Ha'. unfold humidity_control in Ha'.
      revert Ha'.
      destruct (lt (current_humidity f) TARGET_HUMIDITY_LOW),
        (gt (current_humidity f) TARGET_HUMIDITY_HIGH), (mister a2),
        (fan a2) eqn:E2; cbn; rewrite ?E2; intros; congruence. }
    unfold a2 in Hf2. cbn [control] in Hf2. unfold temperature_control in Hf2.
    rewrite Ef1, Ha in Hf2. revert Hf2.
    destruct (gt (current_temp f) TARGET_TEMP_HIGH),
      (lt (current_temp f) TARGET_TEMP_OPTIMAL);
      cbn; rewrite ?Ef1, ?Ha; intros; congruence.
Qed.

End CycleProperties.

Lemma fan_stopped_and_restarted_witness :
  fan (actuators nat
         (cycle fmt_25_0 fmt_20000 nat counting_clock cool_humid_frame
            {| actuators := fan_on; clk := O; fs := empty |})) = true.
Proof.
  destruct (fan_stopped_and_restarted fmt_25_0 fmt_20000 nat counting_clock
              cool_humid_frame {| actuators := fan_on; clk := O; fs := empty |})
    as (_ & _ & H & _); [reflexivity | reflexivity | reflexivity | reflexivity |].
  exact H.
Defined.

(** * The simulated sensors *)

Lemma lt_le (a b : float) : lt a b = true -> le a b = true.
Proof.
  unfold lt, le, SFltb, SFleb. destruct (SFcompare a b) as [[] |]; congruence.
Qed.

Lemma le_refl_of (a b : float) :
  le a b = true -> le a a = true /\ le b b = true.
Proof.
  unfold le, SFleb, SFcompare.
  destruct a as [[] | [] | | [] ma ea], b as [[] | [] | | [] mb eb];
    try discriminate; intros _;
    rewrite ?Z.compare_refl, ?Pos.compare_cont_refl; split; reflexivity.
Qed.

(** Clamping between two bounds gives a value between them, whatever is
    clamped. *)
Lemma clamp_bounds (lo hi x : float) :
  le lo hi = true ->
  le lo (py_max lo (py_min hi x)) = true
  /\ le (py_max lo (py_min hi x)) hi = true.
Proof.
  intros H. destruct (le_refl_of lo hi H) as [Hlo Hhi].
  unfold py_max, py_min, gt.
  destruct (lt x hi) eqn:E1.
  - change (SFltb lo x) with (lt lo x). destruct (lt lo x) eqn:E2.
    + split; apply lt_le; assumption.
    + split; assumption.
  - change (SFltb lo hi) with (lt lo hi).
    destruct (lt lo hi) eqn:E2; split; assumption.
Qed.

Section SensorProperties.

Variable rng : Type.
Variable uniform : float -> float -> rng -> float * rng.
Variable round_ndigits : float -> Z -> float.

(** X9: the simulated sensors keep their values in range.  Whatever the
    stored values and whatever the generator draws, not-a-number included,
    after a read the stored moisture lies in [0, 100] and is the reading
    returned, the stored temperature lies in [15, 40], the stored humidity
    in [30, 95] and the stored light in [0, 60000]; each read changes its
    own variable only. *)
Theorem sensors_stay_in_range (s : SensorState) (g : rng) :
  (le (float_of_int 0) (fst (fst (get_soil_moisture_reading rng uniform s g))) = true
   /\ le (fst (fst (get_soil_moisture_reading rng uniform s g))) (float_of_int 100)
      = true
   /\ snd (fst (get_soil_moisture_reading rng uniform s g))
      = {| simulated_moisture :=
             fst (fst (get_soil_moisture_reading rng uniform s g));
           simulated_temp := simulated_temp s;
           simulated_humidity := simulated_humidity s;
           simulated_light := simulated_light s |})
  /\ (exists t,
        le (float_of_int 15) t = true /\ le t (float_of_int 40) = true
        /\ fst (fst (get_temperature_reading rng uniform round_ndigits s g))
           = round_ndigits t 1
        /\ snd (fst (get_temperature_reading rng uniform round_ndigits s g))
           = {| simulated_moisture := simulated_moisture s;
                simulated_temp := t;
                simulated_humidity := simulated_humidity s;
                simulated_light := simulated_light s |})
  /\ (exists h,
        le (float_of_int 30) h = true /\ le h (float_of_int 95) = true
        /\ fst (fst (get_humidity_reading rng uniform round_ndigits s g))
           = round_ndigits h 1
        /\ snd (fst (get_humidity_reading rng uniform round_ndigits s g))
           = {| simulated_moisture := simulated_moisture s;
                simulated_temp := simulated_temp s;
                simulated_humidity := h;
                simulated_light := simulated_light s |})
  /\ (exists l,
        le (float_of_int 0) l = true /\ le l (float_of_int 60000) = true
        /\ fst (fst (get_light_reading rng uniform round_ndigits s g))
           = round_ndigits l 0
        /\ snd (fst (get_light_reading rng uniform round_ndigits s g))
           = {| simulated_moisture := simulated_moisture s;
                simulated_temp := simulated_temp s;
                simulated_humidity := simulated_humidity s;
                simulated_light := l |}).
Proof.
  split; [| split; [| split]].
  - unfold get_soil_moisture_reading.
    destruct (gt (simulated_moisture s) (float_of_int 70));
      [| destruct (lt (simulated_moisture s) (float_of_int 30))];
      destruct (uniform _ _ g) as [u g']; cbn [fst snd];
      (split; [| split; [| reflexivity]]);
      apply (clamp_bounds (float_of_int 0) (float_of_int 100)); reflexivity.
  - unfold get_temperature_reading.
    destruct (uniform _ _ g) as [u g']. cbn [fst snd].
    eexists. split; [| split; [| split; reflexivity]];
      apply (clamp_bounds (float_of_int 15) (float_of_int 40)); reflexivity.
  - unfold get_humidity_reading.
    destruct (uniform _ _ g) as [u g']. cbn [fst snd].
    eexists. split; [| split; [| split; reflexivity]];
      apply (clamp_bounds (float_of_int 30) (float_of_int 95)); reflexivity.
  - unfold get_light_reading.
    destruct (uniform _ _ g) as [u g']. cbn [fst snd].
    eexists. split; [| split; [| split; reflexivity]];
      apply (clamp_bounds (float_of_int 0) (float_of_int 60000)); reflexivity.
Qed.

End SensorProperties.

Section SensorRound.

Variable rng : Type.
Variable uniform : float -> float -> rng -> float * rng.
Variable round_ndigits : float -> Z -> float.

(** X10: the four reads at the top of a cycle bring every stored value
    into its range, whatever was stored before and whatever the generator
    draws; the moisture reading of the frame is the stored moisture, so it
    lies in [0, 100], and the other readings are the stored values
    rounded. *)
Theorem read_sensors_in_range (s : SensorState) (g : rng) :
  in_range (snd (fst (read_sensors rng uniform round_ndigits s g)))
  /\ current_moisture (fst (fst (read_sensors rng uniform round_ndigits s g)))
     = simulated_moisture (snd (fst (read_sensors rng uniform round_ndigits s g)))
  /\ current_temp (fst (fst (read_sensors rng uniform round_ndigits s g)))
     = round_ndigits
         (simulated_temp (snd (fst (read_sensors rng uniform round_ndigits s g)))) 1
  /\ current_humidity (fst (fst (read_sensors rng uniform round_ndigits s g)))
     = round_ndigits
         (simulated_humidity
            (snd (fst (read_sensors rng uniform round_ndigits s g)))) 1
  /\ current_light (fst (fst (read_sensors rng uniform round_ndigits s g)))
     = round_ndigits
         (simulated_light (snd (fst (read_sensors rng uniform round_ndigits s g)))) 0.
Proof.
  unfold read_sensors, get_soil_moisture_reading, get_temperature_reading,
    get_humidity_reading, get_light_reading, in_range.
  destruct (gt (simulated_moisture s) (float_of_int 70));
    [| destruct (lt (simulated_moisture s) (float_of_int 30))];
    destruct (uniform _ _ g) as [u1 g1]; cbn [simulated_temp];
    destruct (uniform _ _ g1) as [u2 g2]; cbn [simulated_humidity];
    destruct (uniform _ _ g2) as [u3 g3]; cbn [simulated_light];
    destruct (uniform _ _ g3) as [u4 g4];
    cbn [fst snd simulated_moisture simulated_temp simulated_humidity
           simulated_light current_moisture current_temp current_humidity
           current_light];
    (split; [| repeat split]);
    (split; [| split; [| split]]);
    first [ apply (clamp_bounds (float_of_int 0) (float_of_int 100))
          | apply (clamp_bounds (float_of_int 15) (float_of_int 40))
          | apply (clamp_bounds (float_of_int 30) (float_of_int 95))
          | apply (clamp_bounds (float_of_int 0) (float_of_int 60000)) ];
    reflexivity.
Qed.

End SensorRound.

(** * The local log *)


Section LogProperties.

Variable fmt_1f : float -> string.
Variable fmt_0f : float -> string.
Variable clock : Type.
Variable strftime_now : clock -> string * clock.

(** A property of lines that holds of every line that the loop can write. *)
Variable P : string -> Prop.

Hypothesis P_category :
  forall (c : category) (f : Frame) (a : ActuatorState) (k : clock),
    P (log_entry (fst (strftime_now k))
         (fst (snd (control fmt_1f fmt_0f c f a)))
         (snd (snd (control fmt_1f fmt_0f c f a))) +:+ LF).

Hypothesis P_initial :
  forall (f : Frame) (k : clock),
    P (log_entry (fst (strftime_now k))
         ("Moisture: " +:+ fmt_1f (current_moisture f) +:+ "%")
         "System Initialized: Pump OFF" +:+ LF)
    /\ P (log_entry (fst (strftime_now k))
            ("Temp: " +:+ fmt_1f (current_temp f) +:+ degree_C)
            "System Initialized: Fan OFF" +:+ LF)
    /\ P (log_entry (fst (strftime_now k))
            ("Humidity: " +:+ fmt_1f (current_humidity f) +:+ "%")
            "System Initialized: Mister OFF" +:+ LF)
    /\ P (log_entry (fst (strftime_now k))
            ("Light: " +:+ fmt_0f (current_light f) +:+ " Lux")
            "System Initialized: Light OFF" +:+ LF).











End LogProperties.

(** * From the log to the export *)

Lemma occurs_append (c : ascii) (a b : string) :
  occurs c (a +:+ b) = occurs c a || occurs c b.
Proof.
  induction a as [| x a IH]; [reflexivity |].
  rewrite append_cons. cbn [occurs]. destruct (ascii_dec c x); [reflexivity | exact IH].
Qed.

Lemma all_chars_occurs (p : ascii -> bool) (s : string) (c : ascii) :
  all_chars p s = true -> p c = false -> occurs c s = false.
Proof.
  intros Hs Hc. induction s as [| x s IH]; [reflexivity |].
  cbn [all_chars occurs] in *. apply andb_prop in Hs. destruct Hs as [Hx Hs].
  destruct (ascii_dec c x) as [-> |]; [congruence | exact (IH Hs)].
Qed.

Lemma prefix_occurs (sep s : string) (c : ascii) :
  String.prefix sep s = true -> occurs c sep = true -> occurs c s = true.
Proof.
  revert s. induction sep as [| x sep IH]; intros s Hp Hc; [discriminate Hc |].
  destruct s as [| y s]; [discriminate Hp |].
  cbn [String.prefix occurs] in *.
  destruct (ascii_dec x y) as [-> |]; [| discriminate Hp].
  destruct (ascii_dec c y); [reflexivity | exact (IH s Hp Hc)].
Qed.

Lemma contains_occurs (sep s : string) (c : ascii) :
  contains sep s = true -> occurs c sep = true -> occurs c s = true.
Proof.
  intros Hs Hc. induction s as [| x s IH].
  - rewrite contains_nil in Hs. exact (prefix_occurs _ _ _ Hs Hc).
  - rewrite contains_cons in Hs. apply orb_prop in Hs. destruct Hs as [Hs | Hs].
    + exact (prefix_occurs _ _ _ Hs Hc).
    + cbn [occurs]. rewrite (IH Hs). destruct (ascii_dec c x); reflexivity.
Qed.

Lemma not_occurs_not_contains (sep s : string) (c : ascii) :
  occurs c sep = true -> occurs c s = false -> contains sep s = false.
Proof.
  intros Hc Hs. destruct (contains sep s) eqn:E; [| reflexivity].
  rewrite (contains_occurs _ _ _ E Hc) in Hs. discriminate Hs.
Qed.

Lemma rstrip_app (p q : string) :
  rstrip q <> EmptyString -> rstrip (p +:+ q) = p +:+ rstrip q.
Proof.
  intros Hq. induction p as [| c p IH]; [reflexivity |].
  rewrite !append_cons. cbn [rstrip]. rewrite IH.
  destruct (p +:+ rstrip q) as [| c' r] eqn:E; [| reflexivity].
  destruct p; [| discriminate E]. exfalso. apply Hq. exact E.
Qed.

(** The batch strips the line feed, and nothing else, from a logged line
    whose action ends in a character that is not white space. *)
Lemma strip_logged_line (ts sd action : string) :
  rstrip (action +:+ LF) = action ->
  action <> EmptyString ->
  strip (log_entry ts sd action +:+ LF) = log_entry ts sd action.
Proof.
  intros Hr Hne. unfold strip, log_entry.
  rewrite !append_assoc.
  assert (rstrip (". Action: " +:+ action +:+ LF) = ". Action: " +:+ action)
    as H1.
  { rewrite rstrip_app; rewrite Hr; [reflexivity | exact Hne]. }
  assert (rstrip (sd +:+ ". Action: " +:+ action +:+ LF)
          = sd +:+ ". Action: " +:+ action) as H2.
  { rewrite rstrip_app; rewrite H1; [reflexivity | discriminate]. }
  assert (rstrip ("] " +:+ sd +:+ ". Action: " +:+ action +:+ LF)
          = "] " +:+ sd +:+ ". Action: " +:+ action) as H3.
  { rewrite rstrip_app; rewrite H2; [reflexivity |].
    destruct sd; discriminate. }
  assert (rstrip (ts +:+ "] " +:+ sd +:+ ". Action: " +:+ action +:+ LF)
          = ts +:+ "] " +:+ sd +:+ ". Action: " +:+ action) as H4.
  { rewrite rstrip_app; rewrite H3; [reflexivity | discriminate]. }
  rewrite rstrip_app; rewrite H4; [reflexivity |].
  destruct ts; discriminate.
Qed.

(** What extraction returns on a logged line as the batch reads it, with its
    line feed. *)
Lemma logged_entry_extract (ts label v unit action : string) (c : ascii) :
  String.length ts = 19%nat ->
  numeric_text v = true ->
  contains ": " label = false ->
  occurs "A" label = false ->
  occurs ":" unit = false ->
  occurs "A" unit = false ->
  contains ". Action: " action = false ->
  rstrip (action +:+ LF) = action ->
  action <> EmptyString ->
  extract (strip (log_entry ts (String c label +:+ ": " +:+ v +:+ unit) action
                  +:+ LF))
  = Ok {| x_timestamp := ts;
          x_sensor_type := label;
          x_sensor_value_unit := strip (v +:+ unit);
          x_action_name := action_name_of action;
          x_is_critical := critical_action action |}.
Proof.
  intros Hts Hv Hl HlA Hu HuA Ha Hr Hne.
  rewrite (strip_logged_line ts _ action Hr Hne).
  pose proof (all_chars_occurs numeric_char v ":" Hv eq_refl) as Hv1.
  pose proof (all_chars_occurs numeric_char v "A" Hv eq_refl) as Hv2.
  apply (extract_logged_line ts label (v +:+ unit) action c Hts Hl).
  - apply (not_occurs_not_contains ": " _ ":" eq_refl).
    rewrite occurs_append, Hv1, Hu. reflexivity.
  - apply (not_occurs_not_contains ". Action: " _ "A" eq_refl).
    rewrite !occurs_append, HlA, Hv2, HuA. reflexivity.
  - exact Ha.
Qed.

Section LoggedLines.

Variable fmt_1f : float -> string.
Variable fmt_0f : float -> string.

Hypothesis fmt_1f_numeric : forall x, numeric_text (fmt_1f x) = true.
Hypothesis fmt_0f_numeric : forall x, numeric_text (fmt_0f x) = true.

Ltac extract_with label v unit c0 :=
  eexists; split;
  [ apply (logged_entry_extract _ label v unit _ c0);
    first [ assumption | apply fmt_1f_numeric | apply fmt_0f_numeric
          | reflexivity | discriminate ]
  | split; reflexivity ].

(** Extraction succeeds on every line that a category logs. *)
Lemma control_line_extract (c : category) (f : Frame) (a : ActuatorState)
  (ts : string) :
  String.length ts = 19%nat ->
  exists x,
    extract (strip (log_entry ts (fst (snd (control fmt_1f fmt_0f c f a)))
                      (snd (snd (control fmt_1f fmt_0f c f a))) +:+ LF))
    = Ok x
    /\ x_timestamp x = ts
    /\ x_is_critical x
       = critical_action (snd (snd (control fmt_1f fmt_0f c f a))).
Proof.
  intros Hts. destruct c; cbn [control].
  - unfold moisture_control. destruct (pump a);
      repeat (destruct (_ && _); cbn [fst snd]);
      extract_with "oil_Moisture" (fmt_1f (current_moisture f)) "%" "S"%char.
  - unfold temperature_control. destruct (fan a);
      repeat (destruct (_ && _); cbn [fst snd]);
      extract_with "emperature" (fmt_1f (current_temp f)) degree_C "T"%char.
  - unfold humidity_control. destruct (mister a);
      repeat (destruct (_ && _); cbn [fst snd]);
      extract_with "umidity" (fmt_1f (current_humidity f)) "%" "H"%char.
  - unfold light_control. destruct (led_light a), (shade_net a);
      (destruct (_ && _); cbn [fst snd];
       [extract_with "ight_Intensity" (fmt_0f (current_light f)) " Lux" "L"%char |]);
      (destruct (_ && _); cbn [fst snd];
       [extract_with "ight_Intensity" (fmt_0f (current_light f)) " Lux" "L"%char |]);
      (destruct (_ && _); cbn [fst snd];
       [extract_with "ight_Intensity" (fmt_0f (current_light f)) " Lux" "L"%char |]);
      (destruct (_ && _); cbn [fst snd];
       [extract_with "ight" (fmt_0f (current_light f)) " Lux" "L"%char |]);
      extract_with "ight_Intensity" (fmt_0f (current_light f)) " Lux" "L"%char.
Qed.


End LoggedLines.

Section LoopLog.

Variable fmt_1f : float -> string.
Variable fmt_0f : float -> string.
Variable clock : Type.
Variable strftime_now : clock -> string * clock.




End LoopLog.

(** * Further properties of the batch exporter *)

Section ExportProperties.

Variable rng : Type.
Variable randint : Z -> Z -> rng -> Z * rng.
Variable csv_row : list string -> string.

Lemma parse_log_entry_of_extract (line : string) (g : rng) :
  parse_log_entry rng randint line g
  = match extract line with
    | Ok x => (Ok (Some (record_of x (fst (randint 1000 9999 g)))),
               snd (randint 1000 9999 g))
    | Raise _ => (Ok None, g)
    end.
Proof.
  unfold parse_log_entry, parse_log_entry_try.
  destruct (extract line) as [x | e] eqn:E.
  - destruct (randint 1000 9999 g). reflexivity.
  - apply extract_raises_IndexError in E. subst e. reflexivity.
Qed.

(** The run, by the records of the log. *)
Lemma read_local_buffer_and_sync_by_records (fs : files) (g : rng) :
  exists g',
    read_local_buffer_and_sync rng randint csv_row fs g
    = match fs !! LOCAL_LOG_FILE with
      | None => (Ok tt, fs, g)
      | Some lines =>
          match records_in_file_order rng randint lines g with
          | [] => (Ok tt, fs, g')
          | first :: rest =>
              (Ok tt,
               <[CLOUD_READY_CSV :=
                   csv_row (keys first)
                   :: map (fun d => csv_row (values d)) (first :: rest)]> fs,
               g')
          end
      end.
Proof.
  unfold read_local_buffer_and_sync.
  destruct (fs !! LOCAL_LOG_FILE) as [lines |]; [| exists g; reflexivity].
  destruct (parse_lines_in_file_order rng randint lines [] g) as [g' ->].
  exists g'. cbn [app].
  pose proof (records_in_file_order_are_records rng randint lines g) as Hall.
  destruct (records_in_file_order rng randint lines g) as [| first rest];
    [reflexivity |].
  pose proof Hall as Hfirst. apply Forall_inv in Hfirst.
  destruct Hfirst as (x & n & ->).
  rewrite (writerows_records csv_row x n _ Hall). reflexivity.
Qed.


(** X14: the export writes one file only.  After a run every path other
    than [CloudSync_Ready.csv] holds what it held before, and a path that
    did not exist still does not. *)
Theorem export_changes_only_the_csv (fs : files) (g : rng) (p : string) :
  p <> CLOUD_READY_CSV ->
  snd (fst (read_local_buffer_and_sync rng randint csv_row fs g)) !! p
  = fs !! p.
Proof.
  intros Hp.
  destruct (read_local_buffer_and_sync_by_records fs g) as [g' ->].
  destruct (fs !! LOCAL_LOG_FILE) as [lines |]; [| reflexivity].
  destruct (records_in_file_order rng randint lines g); [reflexivity |].
  cbn [fst snd]. apply lookup_insert_ne. intros <-. apply Hp. reflexivity.
Qed.

Lemma record_fields (x : extracted) (n : Z) :
  keys (record_of x n) = RECORD_FIELDS
  /\ List.length (values (record_of x n)) = 6%nat
  /\ (get "Is_Critical" (record_of x n) = Some "Yes"
      \/ get "Is_Critical" (record_of x n) = Some "No")
  /\ get "Cloud_Sync_ID" (record_of x n) = Some ("CS-" +:+ str_of_int n).
Proof.
  repeat split. cbn. destruct (x_is_critical x); [left | right]; reflexivity.
Qed.

(** X15: the schema of the export.  Whenever the log yields a record, the
    file written starts with the row of the six column names [Timestamp],
    [Sensor_Type], [Sensor_Reading], [Actuator_Action], [Is_Critical],
    [Cloud_Sync_ID], and every row after it is the row of a record with
    exactly these six fields, in the order of the log. *)
Theorem export_schema (fs : files) (g : rng) (lines : list string) :
  fs !! LOCAL_LOG_FILE = Some lines ->
  records_in_file_order rng randint lines g <> [] ->
  snd (fst (read_local_buffer_and_sync rng randint csv_row fs g))
    !! CLOUD_READY_CSV
  = Some (csv_row RECORD_FIELDS
          :: map (fun d => csv_row (values d))
               (records_in_file_order rng randint lines g))
  /\ Forall (fun d => keys d = RECORD_FIELDS
                      /\ List.length (values d) = 6%nat)
       (records_in_file_order rng randint lines g).
Proof.
  intros Hlog Hne.
  destruct (read_local_buffer_and_sync_by_records fs g) as [g' ->].
  rewrite Hlog.
  pose proof (records_in_file_order_are_records rng randint lines g) as Hall.
  split.
  - destruct (records_in_file_order rng randint lines g) as [| first rest];
      [congruence |].
    cbn [fst snd]. rewrite lookup_insert_eq.
    apply Forall_inv in Hall. destruct Hall as (x & n & ->).
    rewrite (proj1 (record_fields x n)). reflexivity.
  - eapply Forall_impl; [exact Hall |].
    intros d (x & n & ->). split; apply record_fields.
Qed.

(** X16: a run replaces the export of an earlier run.  The file written
    depends on the log and on the generator only: whatever
    [CloudSync_Ready.csv] held before, it holds the same rows afterwards. *)
Theorem export_replaces_previous (fs : files) (g : rng) (lines old : list string) :
  fs !! LOCAL_LOG_FILE = Some lines ->
  records_in_file_order rng randint lines g <> [] ->
  snd (fst (read_local_buffer_and_sync rng randint csv_row
              (<[CLOUD_READY_CSV := old]> fs) g)) !! CLOUD_READY_CSV
  = snd (fst (read_local_buffer_and_sync rng randint csv_row fs g))
      !! CLOUD_READY_CSV.
Proof.
  intros Hlog Hne.
  destruct (read_local_buffer_and_sync_by_records fs g) as [g1 ->].
  destruct (read_local_buffer_and_sync_by_records
              (<[CLOUD_READY_CSV := old]> fs) g) as [g2 ->].
  rewrite lookup_insert_ne by discriminate. rewrite Hlog.
  destruct (records_in_file_order rng randint lines g) as [| first rest];
    [congruence |].
  cbn [fst snd]. rewrite !lookup_insert_eq. reflexivity.
Qed.

End ExportProperties.

Lemma export_changes_only_the_csv_witness :
  snd (fst (read_local_buffer_and_sync nat counter_randint comma_row sample_fs O))
    !! "notes.txt"
  = sample_fs !! "notes.txt".
Proof.
  apply (export_changes_only_the_csv nat counter_randint comma_row sample_fs O
           "notes.txt").
  discriminate.
Defined.

Lemma export_schema_witness :
  snd (fst (read_local_buffer_and_sync nat counter_randint comma_row sample_fs O))
    !! CLOUD_READY_CSV
  = Some (comma_row RECORD_FIELDS
          :: map (fun d => comma_row (values d))
               (records_in_file_order nat counter_randint sample_log O)).
Proof.
  apply (export_schema nat counter_randint comma_row sample_fs O sample_log).
  - reflexivity.
  - vm_compute. discriminate.
Defined.

Lemma export_replaces_previous_witness :
  snd (fst (read_local_buffer_and_sync nat counter_randint comma_row
              (<[CLOUD_READY_CSV := ["stale"]]> sample_fs) O)) !! CLOUD_READY_CSV
  = snd (fst (read_local_buffer_and_sync nat counter_randint comma_row sample_fs O))
      !! CLOUD_READY_CSV.
Proof.
  apply (export_replaces_previous nat counter_randint comma_row sample_fs O
           sample_log ["stale"]).
  - reflexivity.
  - vm_compute. discriminate.
Defined.

(** X17: the fields read from the log do not depend on the generator.  Two
    runs over the same lines, with any two generators in any states, yield
    the same records up to the correlation id: a second run over a log that
    was not cleared exports the same rows under new ids. *)
Theorem records_differ_in_id_only
  (rng1 rng2 : Type)
  (randint1 : Z -> Z -> rng1 -> Z * rng1)
  (randint2 : Z -> Z -> rng2 -> Z * rng2)
  (lines : list string) :
  forall (g1 : rng1) (g2 : rng2),
    map without_id (records_in_file_order rng1 randint1 lines g1)
    = map without_id (records_in_file_order rng2 randint2 lines g2).
Proof.
  induction lines as [| line rest IH]; intros g1 g2; [reflexivity |].
  cbn [records_in_file_order].
  rewrite !parse_log_entry_of_extract.
  destruct (extract (strip line)) as [x | e]; [| apply IH].
  cbn [map]. rewrite (IH (snd (randint1 1000 9999 g1)) (snd (randint2 1000 9999 g2))).
  reflexivity.
Qed.

(** * The two programs together *)

Lemma critical_action_switched_on
  (fmt_1f fmt_0f : float -> string) (c : category) (f : Frame) (a : ActuatorState) :
  critical_action (snd (snd (control fmt_1f fmt_0f c f a)))
  = switched_on a (fst (control fmt_1f fmt_0f c f a)).
Proof.
  destruct a as [p fn m l s].
  destruct c; cbn [control];
    unfold moisture_control, temperature_control, humidity_control, light_control;
    cbn [pump fan mister led_light shade_net];
    repeat match goal with
      | |- context [ lt ?x ?y ] =>
          let b := fresh "b" in set (b := lt x y); clearbody b; destruct b
      | |- context [ gt ?x ?y ] =>
          let b := fresh "b" in set (b := gt x y); clearbody b; destruct b
      end;
    destruct p, fn, m, l, s; reflexivity.
Qed.


Section TwoPrograms.

Variable fmt_1f : float -> string.
Variable fmt_0f : float -> string.
Variable clock : Type.
Variable strftime_now : clock -> string * clock.
Variable rng : Type.
Variable randint : Z -> Z -> rng -> Z * rng.
Variable csv_row : list string -> string.



(** X19: a logged line is flagged critical exactly when its category
    switched a device ON.  For every category, frame and state, the batch
    parses the line that the category logs into a record whose time stamp
    is the logged one and whose [Is_Critical] is [Yes] if a device that was
    OFF is ON after the category, and [No] otherwise. *)
Theorem logged_line_critical_iff_switched_on
  (c : category) (f : Frame) (a : ActuatorState) (ts : string) (g : rng) :
  (forall x, numeric_text (fmt_1f x) = true) ->
  (forall x, numeric_text (fmt_0f x) = true) ->
  String.length ts = 19%nat ->
  exists d g',
    parse_log_entry rng randint
      (strip (category_line fmt_1f fmt_0f ts c f a)) g
    = (Ok (Some d), g')
    /\ get "Timestamp" d = Some ts
    /\ get "Is_Critical" d
       = Some (if switched_on a (fst (control fmt_1f fmt_0f c f a))
               then "Yes" else "No").
Proof.
  intros H1 H0 Hts.
  destruct (control_line_extract fmt_1f fmt_0f H1 H0 c f a ts Hts)
    as (x & Hx & Htsx & Hcrit).
  rewrite parse_log_entry_of_extract. unfold category_line. rewrite Hx.
  eexists _, _. split; [reflexivity |].
  cbn [get record_of String.eqb Ascii.eqb Bool.eqb].
  rewrite Htsx, Hcrit, critical_action_switched_on.
  split; reflexivity.
Qed.

End TwoPrograms.


Lemma logged_line_critical_iff_switched_on_witness :
  exists d g',
    parse_log_entry nat counter_randint
      (strip (category_line fmt_35_0 fmt_20000 "2025-01-01 00:00:00"
                Moisture dry_frame all_off)) O
    = (Ok (Some d), g')
    /\ get "Timestamp" d = Some "2025-01-01 00:00:00"
    /\ get "Is_Critical" d = Some "Yes".
Proof.
  apply (logged_line_critical_iff_switched_on fmt_35_0 fmt_20000
           nat counter_randint Moisture dry_frame all_off
           "2025-01-01 00:00:00" O).
  - intros x. reflexivity.
  - intros x. reflexivity.
  - reflexivity.
Defined.

(** * Further properties of the parser *)

Lemma slice_to_length (n : nat) (s : string) :
  (String.length (slice_to n s) <= n)%nat.
Proof.
  revert s. induction n as [| n IH]; intros s; [destruct s; cbn; lia |].
  destruct s as [| c s]; cbn [slice_to String.length]; [lia |].
  specialize (IH s). lia.
Qed.

Lemma rstrip_idempotent (s : string) : rstrip (rstrip s) = rstrip s.
Proof.
  induction s as [| c s IH]; [reflexivity |].
  cbn [rstrip]. destruct (rstrip s) as [| c' r] eqn:E.
  - destruct (isspace c) eqn:Ec; [reflexivity |].
    cbn [rstrip]. rewrite Ec. reflexivity.
  - cbn [rstrip] in IH |- *. rewrite IH. reflexivity.
Qed.

Lemma rstrip_lstrip (t : string) : rstrip t = t -> rstrip (lstrip t) = lstrip t.
Proof.
  induction t as [| c t IH]; intros H; [reflexivity |].
  cbn [lstrip]. destruct (isspace c) eqn:Ec; [| exact H].
  apply IH. cbn [rstrip] in H. rewrite Ec in H.
  destruct (rstrip t) as [| c' r]; [discriminate H |].
  injection H as H. exact H.
Qed.

Lemma lstrip_idempotent (s : string) : lstrip (lstrip s) = lstrip s.
Proof.
  induction s as [| c s IH]; [reflexivity |].
  cbn [lstrip]. destruct (isspace c) eqn:Ec; [exact IH |].
  cbn [lstrip]. rewrite Ec. reflexivity.
Qed.

Lemma strip_idempotent (s : string) : strip (strip s) = strip s.
Proof.
  unfold strip.
  rewrite (rstrip_lstrip (rstrip s) (rstrip_idempotent s)).
  apply lstrip_idempotent.
Qed.

Lemma occurs_text_before (c : ascii) (s : string) :
  occurs c (text_before c s) = false.
Proof.
  induction s as [| x s IH]; [reflexivity |].
  cbn [text_before]. destruct (ascii_dec c x) as [| Hne]; [reflexivity |].
  cbn [occurs]. destruct (ascii_dec c x); [contradiction | exact IH].
Qed.

Lemma occurs_lstrip (c : ascii) (s : string) :
  occurs c s = false -> occurs c (lstrip s) = false.
Proof.
  induction s as [| x s IH]; [trivial |].
  cbn [lstrip]. destruct (isspace x); [| trivial].
  cbn [occurs]. destruct (ascii_dec c x); [discriminate | exact IH].
Qed.

Lemma occurs_rstrip (c : ascii) (s : string) :
  occurs c s = false -> occurs c (rstrip s) = false.
Proof.
  induction s as [| x s IH]; [trivial |].
  cbn [occurs]. destruct (ascii_dec c x) as [| Hne]; [discriminate |].
  intros H. specialize (IH H). cbn [rstrip].
  destruct (rstrip s) as [| c' r].
  - destruct (isspace x); [reflexivity |].
    cbn [occurs]. destruct (ascii_dec c x); [contradiction | reflexivity].
  - cbn [occurs] in IH |- *.
    destruct (ascii_dec c x); [contradiction | exact IH].
Qed.

Lemma occurs_strip (c : ascii) (s : string) :
  occurs c s = false -> occurs c (strip s) = false.
Proof. intros H. unfold strip. apply occurs_lstrip, occurs_rstrip, H. Qed.

(** What extraction returns, when it returns: the fields by the text they
    are taken from. *)
Lemma extract_fields (line : string) (x : extracted) :
  extract line = Ok x ->
  x_timestamp x = slice 1 20 line
  /\ (exists s1, x_sensor_value_unit x = strip s1)
  /\ (exists d1, x_action_name x = strip (text_before "(" (strip d1))).
Proof.
  unfold extract, bind.
  destruct (getitem (split ". Action: " (slice_from 23 line)) 0) as [d0 |];
    [| discriminate].
  destruct (getitem (split ": " d0) 0) as [t |]; [| discriminate].
  destruct (getitem (split ": " d0) 1) as [s1 |]; [| discriminate].
  destruct (getitem (split ". Action: " (slice_from 23 line)) 1) as [d1 |];
    [| discriminate].
  rewrite getitem_split_head. intros [= <-]. cbn.
  split; [reflexivity | split; eexists; reflexivity].
Qed.

Section RecordProperties.

Variable rng : Type.
Variable randint : Z -> Z -> rng -> Z * rng.

(** X20: the shape of a parsed record.  Whenever the parser returns a
    record, for any line at all, the record has the six fields of the
    export in their order; its time stamp is the text at positions 1 to 19
    of the line, at most 19 characters; its reading and its action name
    carry no white space at either end; its action name contains no opening
    parenthesis; and [Is_Critical] is [Yes] or [No]. *)
Theorem parsed_record_well_formed (line : string) (g g' : rng) (d : dict) :
  parse_log_entry rng randint line g = (Ok (Some d), g') ->
  keys d = RECORD_FIELDS
  /\ get "Timestamp" d = Some (slice 1 20 line)
  /\ (String.length (slice 1 20 line) <= 19)%nat
  /\ (exists v, get "Sensor_Reading" d = Some v /\ strip v = v)
  /\ (exists n,
        get "Actuator_Action" d = Some n
        /\ strip n = n
        /\ occurs "(" n = false)
  /\ (get "Is_Critical" d = Some "Yes" \/ get "Is_Critical" d = Some "No").
Proof.
  unfold parse_log_entry, parse_log_entry_try.
  destruct (extract line) as [x | e] eqn:E.
  - destruct (randint 1000 9999 g) as [n g1]. intros [= <- <-].
    destruct (extract_fields line x E) as (Hts & (s1 & Hv) & (d1 & Ha)).
    split; [reflexivity |].
    split; [cbn; rewrite Hts; reflexivity |].
    split; [apply slice_to_length |].
    split; [exists (x_sensor_value_unit x); split;
            [reflexivity | rewrite Hv; apply strip_idempotent] |].
    split; [exists (x_action_name x); split; [reflexivity |]; rewrite Ha; split;
            [apply strip_idempotent
            | apply occurs_strip, occurs_text_before] |].
    cbn. destruct (x_is_critical x); [left | right]; reflexivity.
  - destruct (is_Exception e); discriminate.
Qed.

End RecordProperties.

Lemma parsed_record_well_formed_witness :
  keys sample_first = RECORD_FIELDS
  /\ get "Actuator_Action" sample_first = Some "Pump ON".
Proof.
  destruct (parsed_record_well_formed nat counter_randint
              "[2025-01-01 00:00:00] Soil_Moisture: 35.0%. Action: Pump ON (Irrigation START)"
              O 1%nat sample_first)
    as (H1 & _); [vm_compute; reflexivity |].
  split; [exact H1 | reflexivity].
Defined.

Lemma logged_label_loses_first_character_witness :
  exists d,
    fst (parse_log_entry nat counter_randint
           (log_entry "2025-12-05 10:55:01"
              (sensor_data "Humidity" "70.0%") "Mister OFF (Humidify STOP)") O)
    = Ok (Some d)
    /\ get "Sensor_Type" d = Some "umidity"
    /\ get "Actuator_Action" d = Some "Mister OFF".
Proof.
  destruct (logged_label_loses_first_character nat counter_randint
              "2025-12-05 10:55:01" "umidity" "70.0%"
              "Mister OFF (Humidify STOP)" "H"%char O)
    as (d & E & _ & Ht & _ & _ & Ha); try reflexivity.
  exists d. split; [exact E | split; [exact Ht | exact Ha]].
Defined.


Lemma switching_needs_threshold_witness :
  lt (current_moisture dry_frame) TARGET_MOISTURE_LOW = true.
Proof.
  destruct (switching_needs_threshold fmt_35_0 fmt_20000 nat counting_clock
              dry_frame {| actuators := all_off; clk := O; fs := empty |})
    as (H & _).
  apply H; reflexivity.
Defined.

Section EmptySegments.

Variable rng : Type.
Variable randint : Z -> Z -> rng -> Z * rng.


End EmptySegments.


(** Two runs of the sensors: from the start values, and from values outside
    every range. *)
Example read_sensors_from_start :
  let '(f, s, _) := read_sensors nat lower_bound keep_value initial_sensors O in
  current_moisture f = float_of_int 74
  /\ current_humidity f = float_of_int 69
  /\ current_light f = float_of_int 19000.
Proof. vm_compute. repeat split. Qed.

Example read_sensors_from_wild_values :
  fst (fst (read_sensors nat lower_bound keep_value wild_sensors O))
  = {| current_moisture := float_of_int 100;
       current_temp := float_of_int 40;
       current_humidity := float_of_int 30;
       current_light := float_of_int 0 |}.
Proof. vm_compute. reflexivity. Qed.
